(** * borb / ptext: font dictionary transformer, text chunk encoding and
      layout, location filter

    A shallow embedding of three source files,

    - [ptext/tranform/font/default_font_dictionary_transformer.py],
    - [borb/pdf/canvas/layout/text/chunk_of_text.py],
    - [borb/toolkit/location/location_filter.py],

    each in a module of its own, over a small common model of the Python
    values they manipulate: strings as lists of code points, exceptions as
    an error result, mutation as explicit state passing. *)

From Stdlib Require Import ZArith NArith QArith Lqa Ascii String List Lia.
From stdpp Require Import base decidable option numbers list strings gmap.

Set Warnings "-register-all".

(** ** Python values *)

(** A Python [str] is a sequence of Unicode code points; [ord] of a
    character is the code point itself. *)
Abbreviation pystr := (list N).

(** The string literal [s] of the source, as code points. *)
Definition str (s : string) : pystr :=
  N_of_ascii <$> list_ascii_of_string s.

Inductive exn : Type :=
| KeyError
| AttributeError
| TypeError
| AssertionError.

Inductive Result (A : Type) : Type :=
| Ok (a : A)
| Raise (e : exn).
Arguments Ok {A} a.
Arguments Raise {A} e.

Definition rbind {A B} (r : Result A) (k : A -> Result B) : Result B :=
  match r with
  | Ok a => k a
  | Raise e => Raise e
  end.

(** Code that mutates objects threads a state [S]; an exception leaves the
    state as it was when it was raised. *)
Definition M (S A : Type) : Type := S -> Result A * S.

Definition ret {S A} (a : A) : M S A := fun s => (Ok a, s).
Definition raise {S A} (e : exn) : M S A := fun s => (Raise e, s).
Definition bind {S A B} (m : M S A) (k : A -> M S B) : M S B :=
  fun s => match m s with
           | (Ok a, s') => k a s'
           | (Raise e, s') => (Raise e, s')
           end.
Definition modify {S} (f : S -> S) : M S unit := fun s => (Ok tt, f s).
Definition lift {S A} (r : Result A) : M S A := fun s => (r, s).

Declare Scope py_scope.
Delimit Scope py_scope with py.
Notation "x <- m ;; k" := (bind m (fun x => k))
  (at level 100, m at next level, right associativity) : py_scope.
Notation "m ;; k" := (bind m (fun _ => k))
  (at level 100, right associativity) : py_scope.

(** [for x in xs: body x] *)
Fixpoint for_each {S A} (xs : list A) (body : A -> M S unit) : M S unit :=
  match xs with
  | [] => ret tt
  | x :: rest => bind (body x) (fun _ => for_each rest body)
  end.

(** ** Number formatting: [oct], [hex], ["%d"] *)

(** Digits of [n] in [base], most significant first. The recursion divides
    by [base >= 2], so the bit size of [n] bounds its depth. *)
Fixpoint to_digits_fuel (base : N) (fuel : nat) (n : N) : list N :=
  match fuel with
  | O => []
  | S fuel' =>
      if (n <? base)%N then [n]
      else to_digits_fuel base fuel' (n / base)%N ++ [(n mod base)%N]
  end.

Definition to_digits (base n : N) : list N :=
  to_digits_fuel base (S (N.to_nat (N.size n))) n.

Definition digit_char (d : N) : N :=
  if (d <? 10)%N then (48 + d)%N else (87 + d)%N.

Definition numeral (base n : N) : pystr := digit_char <$> to_digits base n.

(** [oct(n)] for [n >= 0] *)
Definition py_oct (n : N) : pystr := str "0o" ++ numeral 8 n.

(** [hex(z)] *)
Definition py_hex (z : Z) : pystr :=
  (if (z <? 0)%Z then str "-" else []) ++ str "0x" ++ numeral 16 (Z.abs_N z).

(** ["%d" % n] for [n >= 0] *)
Definition py_fmt_d (n : N) : pystr := numeral 10 n.

(** Value of a digit sequence, the inverse of [to_digits]. *)
Definition of_digits (base : N) (ds : list N) : N :=
  fold_left (fun acc d => (acc * base + d)%N) ds 0%N.

Definition char_digit (c : N) : N :=
  if (c <? 58)%N then (c - 48)%N else (c - 87)%N.

(** ** Decimal numbers

    Coordinates and sizes are [decimal.Decimal] values. The code only adds,
    subtracts, divides and compares them, so they are kept behind an
    interface; [Q] is the instance used for concrete runs. *)
Class DecimalOps (D : Type) : Type := {
  dadd : D -> D -> D;
  dsub : D -> D -> D;
  ddiv : D -> D -> D;
  dltb : D -> D -> bool;
  dof_Z : Z -> D;
  dltb_irrefl : forall x, dltb x x = false;
}.

Definition Qltb (a b : Q) : bool := negb (Qle_bool b a).

Lemma Qltb_irrefl (x : Q) : Qltb x x = false.
Proof.
  unfold Qltb. apply negb_false_iff. apply Qle_bool_iff. apply Qle_refl.
Qed.

#[export] Instance Q_DecimalOps : DecimalOps Q := {|
  dadd := Qplus;
  dsub := Qminus;
  ddiv := Qdiv;
  dltb := Qltb;
  dof_Z := inject_Z;
  dltb_irrefl := Qltb_irrefl;
|}.

(** [borb.pdf.canvas.geometry.rectangle.Rectangle] *)
Record Rectangle (D : Type) : Type := mkRectangle {
  x : D;
  y : D;
  width : D;
  height : D;
}.
Arguments mkRectangle {D} _ _ _ _.
Arguments x {D} _.
Arguments y {D} _.
Arguments width {D} _.
Arguments height {D} _.

(** ** [chunk_of_text.py] *)
Module ChunkOfText.

(** What the chunk asks of its [Font]. *)
Class FontOps (Font : Type) : Type := {
  unicode_to_character_identifier : Font -> N -> option Z;
  get_font_name : Font -> pystr;
  (** truth value of the font object, tested by [assert self._font] *)
  font_bool : Font -> bool;
}.

Section Model.
Context {Font : Type} `{FontOps Font}.

(** [ord(c) != font.unicode_to_character_identifier(c)]: an [int] is
    never equal to [None]. *)
Definition ord_ne_cid (c : N) (cid : option Z) : bool :=
  match cid with
  | None => true
  | Some z => negb (Z.of_N c =? z)%Z
  end.

(** The loop of [_write_text_bytes] that sets [hex_mode] and breaks. *)
Fixpoint hex_mode (font : Font) (text : pystr) : bool :=
  match text with
  | [] => false
  | c :: rest =>
      if ord_ne_cid c (unicode_to_character_identifier font c) then true
      else hex_mode font rest
  end.

Definition hex_rep (cid : Z) : pystr :=
  let hex_rep := drop 2 (py_hex cid) in
  if (length hex_rep mod 2 =? 1)%nat then str "0" ++ hex_rep else hex_rep.

Fixpoint hex_loop (font : Font) (text : pystr) (sOut : pystr)
  : Result pystr :=
  match text with
  | [] => Ok sOut
  | c :: rest =>
      match unicode_to_character_identifier font c with
      | None => Raise AssertionError
      | Some cid =>
          hex_loop font rest (sOut ++ (str "<" ++ hex_rep cid ++ str ">"))
      end
  end.

Definition _write_text_bytes_in_hex (font : Font) (text : pystr)
  : Result pystr :=
  rbind (hex_loop font text [])
        (fun sOut => Ok (str "[" ++ sOut ++ str "] TJ")).

Definition escape (c : N) : pystr :=
  if (c =? 13)%N then str "\r"
  else if (c =? 10)%N then str "\n"
  else if (c =? 9)%N then str "\t"
  else if (c =? 8)%N then str "\b"
  else if (c =? 12)%N then str "\f"
  else if ((c =? 40) || (c =? 41) || (c =? 92))%N then str "\" ++ [c]
  else if ((0 <=? c) && (c <? 8))%N then str "\00" ++ drop 2 (py_oct c)
  else if ((8 <=? c) && (c <? 32))%N then str "\0" ++ drop 2 (py_oct c)
  else [c].

Fixpoint ascii_loop (text : pystr) (sOut : pystr) : pystr :=
  match text with
  | [] => sOut
  | c :: rest => ascii_loop rest (sOut ++ escape c)
  end.

Definition _write_text_bytes_in_ascii (text : pystr) : pystr :=
  str "(" ++ ascii_loop text [] ++ str ") Tj".

Definition _write_text_bytes (font : Font) (text : pystr) : Result pystr :=
  if hex_mode font text then _write_text_bytes_in_hex font text
  else Ok (_write_text_bytes_in_ascii text).


(** *** Font resources of a page *)

(** A Python [dict] keeps its keys in insertion order: storing under a key
    already present replaces the value in place, storing under a new key
    appends. *)
Fixpoint dict_get {V} (k : pystr) (d : list (pystr * V)) : option V :=
  match d with
  | [] => None
  | (k', v) :: rest => if decide (k = k') then Some v else dict_get k rest
  end.

Fixpoint dict_set {V} (k : pystr) (v : V) (d : list (pystr * V))
  : list (pystr * V) :=
  match d with
  | [] => [(k, v)]
  | (k', v') :: rest =>
      if decide (k = k') then (k, v) :: rest else (k', v') :: dict_set k v rest
  end.

Context `{EqDecision Font}.

(** The objects reachable from a page: dictionaries, fonts (opaque: the
    model does not look inside one, and compares two by identity) and
    numbers, which stand for every object that is neither. *)
Inductive Obj : Type :=
| ODict (d : list (pystr * Obj))
| OFont (f : Font)
| ONumber (z : Z).

(** [k in o] *)
Definition contains (k : pystr) (o : Obj) : Result bool :=
  match o with
  | ODict d => Ok (bool_decide (is_Some (dict_get k d)))
  | _ => Raise TypeError
  end.

(** [o[k]] *)
Definition getitem (o : Obj) (k : pystr) : Result Obj :=
  match o with
  | ODict d =>
      match dict_get k d with
      | Some v => Ok v
      | None => Raise KeyError
      end
  | _ => Raise TypeError
  end.

(** [o[k] = v] *)
Definition setitem (o : Obj) (k : pystr) (v : Obj) : Result Obj :=
  match o with
  | ODict d => Ok (ODict (dict_set k v d))
  | _ => Raise TypeError
  end.

(** [o.items()] *)
Definition items (o : Obj) : Result (list (pystr * Obj)) :=
  match o with
  | ODict d => Ok d
  | _ => Raise AttributeError
  end.

(** [len(o)] *)
Definition len (o : Obj) : Result nat :=
  match o with
  | ODict d => Ok (length d)
  | _ => Raise TypeError
  end.

(** [v == font] *)
Definition eq_font (v : Obj) (font : Font) : bool :=
  match v with
  | OFont f => bool_decide (f = font)
  | _ => false
  end.

(** [[k for k, v in its if v == font]] *)
Fixpoint keys_of_font (font : Font) (its : list (pystr * Obj)) : list pystr :=
  match its with
  | [] => []
  | (k, v) :: rest =>
      if eq_font v font then k :: keys_of_font font rest
      else keys_of_font font rest
  end.

(** The page is the state; a nested store rebuilds the path to the
    dictionary it changes. *)
Definition page_getitem (k : pystr) : M Obj Obj :=
  fun page => (getitem page k, page).

Definition page_setitem (k : pystr) (v : Obj) : M Obj unit :=
  fun page =>
    match setitem page k v with
    | Ok page' => (Ok tt, page')
    | Raise e => (Raise e, page)
    end.

(** [page["Resources"][k] = v] *)
Definition resources_setitem (k : pystr) (v : Obj) : M Obj unit :=
  (r <- page_getitem (str "Resources");;
   r' <- lift (setitem r k v);;
   page_setitem (str "Resources") r')%py.

(** [page["Resources"]["Font"]] *)
Definition resources_font : M Obj Obj :=
  (r <- page_getitem (str "Resources");;
   lift (getitem r (str "Font")))%py.

(** [page["Resources"]["Font"][k] = v] *)
Definition resources_font_setitem (k : pystr) (v : Obj) : M Obj unit :=
  (fd <- resources_font;;
   fd' <- lift (setitem fd k v);;
   resources_setitem (str "Font") fd')%py.

Definition _get_font_resource_name (font : Font) : M Obj pystr :=
  (has_resources <- (fun page => (contains (str "Resources") page, page));;
   (if negb has_resources
    then page_setitem (str "Resources") (ODict [])
    else ret tt);;
   r <- page_getitem (str "Resources");;
   has_font <- lift (contains (str "Font") r);;
   (if negb has_font
    then resources_setitem (str "Font") (ODict [])
    else ret tt);;
   fd <- resources_font;;
   its <- lift (items fd);;
   let font_resource_name := keys_of_font font its in
   match font_resource_name with
   | name :: _ => ret name
   | [] =>
       n <- lift (len fd);;
       let font_index := N.of_nat (n + 1) in
       resources_font_setitem (str "F" ++ py_fmt_d font_index) (OFont font);;
       ret (str "F" ++ py_fmt_d font_index)
   end)%py.

(** *** Layout *)

Context {D : Type} `{DecimalOps D}.

(** The collaborators of the layout: the colour conversion, the ["%f"]
    conversion of a number, the advance width of a [GlyphLine] built from
    character identifiers, a font and a size, and the method of
    [LayoutElement] that appends to the content stream of a page. *)
Context {Color : Type}.
Variable to_rgb : Color -> D * D * D.
Variable fmt_f : D -> pystr.
Variable get_width_in_text_space : list Z -> Font -> D -> D.
Variable _append_to_content_stream : pystr -> M Obj unit.

Record ChunkOfText : Type := mkChunkOfText {
  _text : pystr;
  _font : Font;
  _font_size : option D;
  _font_color : Color;
  bounding_box : option (Rectangle D);
}.

(** [LayoutElement.set_bounding_box] *)
Definition set_bounding_box (r : Rectangle D) (self : ChunkOfText)
  : ChunkOfText :=
  {| _text := _text self;
     _font := _font self;
     _font_size := _font_size self;
     _font_color := _font_color self;
     bounding_box := Some r |}.

(** [assert b] *)
Definition assert {S} (b : bool) : M S unit :=
  if b then ret tt else raise AssertionError.

(** Run a computation on the page, leaving the chunk alone. *)
Definition on_page {A} (m : M Obj A) : M (ChunkOfText * Obj) A :=
  fun st => let '(r, page') := m st.2 in (r, (st.1, page')).

Definition nl : pystr := [10%N].
Definition indent : pystr := str "            ".

(** The content template, filled in. *)
Definition content_of (r g b : D) (name : pystr) (font_size tx ty : D)
  (tj : pystr) : pystr :=
  nl ++ indent ++ str "q"
  ++ nl ++ indent ++ str "BT"
  ++ nl ++ indent ++ fmt_f r ++ str " " ++ fmt_f g ++ str " " ++ fmt_f b
       ++ str " rg"
  ++ nl ++ indent ++ str "/" ++ name ++ str " " ++ fmt_f (dof_Z 1)
       ++ str " Tf" ++ indent
  ++ nl ++ indent ++ fmt_f font_size ++ str " 0 0 " ++ fmt_f font_size
       ++ str " " ++ fmt_f tx ++ str " " ++ fmt_f ty ++ str " Tm" ++ indent
  ++ nl ++ indent ++ tj
  ++ nl ++ indent ++ str "ET" ++ indent
  ++ nl ++ indent ++ str "Q"
  ++ nl ++ str "        ".

(** [cid or 0] *)
Definition or_0 (cid : option Z) : Z :=
  match cid with
  | Some z => z
  | None => 0%Z
  end.

(** [[font.unicode_to_character_identifier(c) or 0 for c in text]] *)
Definition encoded_bytes (font : Font) (text : pystr) : list Z :=
  (fun c => or_0 (unicode_to_character_identifier font c)) <$> text.

Definition _do_layout_without_padding (self : ChunkOfText) (page : Obj)
  (bb : Rectangle D) : Result (Rectangle D) * (ChunkOfText * Obj) :=
  (assert (font_bool (_font self));;
   let '(red, green, blue) := to_rgb (_font_color self) in
   let COLOR_MAX := dof_Z 255 in
   font_size <- match _font_size self with
                | Some fs => ret fs
                | None => raise AssertionError
                end;;
   name <- on_page (_get_font_resource_name (_font self));;
   tj <- lift (_write_text_bytes (_font self) (_text self));;
   let content :=
     content_of (ddiv red COLOR_MAX) (ddiv green COLOR_MAX)
       (ddiv blue COLOR_MAX) name font_size (x bb)
       (dsub (dadd (y bb) (height bb)) font_size) tj in
   on_page (_append_to_content_stream content);;
   let layout_rect :=
     mkRectangle (x bb) (dsub (dadd (y bb) (height bb)) font_size)
       (get_width_in_text_space (encoded_bytes (_font self) (_text self))
          (_font self) font_size)
       font_size in
   modify (fun st => (set_bounding_box layout_rect st.1, st.2));;
   ret layout_rect)%py (self, page).

(** *** The escape table of literal strings, as the specification gives it *)

Definition backslash : N := 92%N.

Definition literal_escape_table (c : N) : pystr :=
  if decide (c = 13%N) then backslash :: str "r"
  else if decide (c = 10%N) then backslash :: str "n"
  else if decide (c = 9%N) then backslash :: str "t"
  else if decide (c = 8%N) then backslash :: str "b"
  else if decide (c = 12%N) then backslash :: str "f"
  else if decide (c ∈ str "()\") then [backslash; c]
  else if decide (c < 8)%N then
    (* three octal digits: two zeros of padding *)
    [backslash; 48; 48; 48 + c]%N
  else if decide (8 <= c <= 31)%N then
    (* three octal digits: one zero of padding *)
    [backslash; 48; 48 + c / 8; 48 + c mod 8]%N
  else [c].

(** Every character has its identifier equal to its code point. *)
Definition all_native (font : Font) (text : pystr) : Prop :=
  Forall (fun c => unicode_to_character_identifier font c = Some (Z.of_N c))
         text.

(** The array operand of [TJ] that shows the identifiers [ids]. *)
Definition hex_array (ids : list Z) : pystr :=
  str "[" ++ concat ((fun cid => str "<" ++ hex_rep cid ++ str ">") <$> ids)
  ++ str "] TJ".

(** *** Registration, as the specification sees it *)

(** The entries of [page["Resources"]["Font"]], read as empty where the
    dictionary is still to be created. *)
Definition registered_fonts (page : Obj) : option (list (pystr * Obj)) :=
  match page with
  | ODict p =>
      match dict_get (str "Resources") p with
      | None => Some []
      | Some (ODict r) =>
          match dict_get (str "Font") r with
          | None => Some []
          | Some (ODict fd) => Some fd
          | Some _ => None
          end
      | Some _ => None
      end
  | _ => None
  end.

(** The page with both dictionaries in place. *)
Definition with_resources (page : Obj) : Obj :=
  match page with
  | ODict p =>
      match dict_get (str "Resources") p with
      | None =>
          ODict (dict_set (str "Resources")
                   (ODict [(str "Font", ODict [])]) p)
      | Some (ODict r) =>
          match dict_get (str "Font") r with
          | None =>
              ODict (dict_set (str "Resources")
                       (ODict (dict_set (str "Font") (ODict []) r)) p)
          | Some _ => page
          end
      | Some _ => page
      end
  | _ => page
  end.

(** The page after [font] is stored under [name]. *)
Definition store_font (name : pystr) (font : Font) (page : Obj) : Obj :=
  match page with
  | ODict p =>
      match dict_get (str "Resources") p with
      | Some (ODict r) =>
          match dict_get (str "Font") r with
          | Some (ODict fd) =>
              ODict (dict_set (str "Resources")
                       (ODict (dict_set (str "Font")
                                 (ODict (dict_set name (OFont font) fd)) r))
                       p)
          | _ => page
          end
      | _ => page
      end
  | _ => page
  end.

Definition new_name (fd : list (pystr * Obj)) : pystr :=
  str "F" ++ py_fmt_d (N.of_nat (length fd + 1)).

(** Both dictionaries are in place, and [fd] holds the fonts. *)
Definition has_fonts (page : Obj) (fd : list (pystr * Obj)) : Prop :=
  exists p r,
    page = ODict p
    /\ dict_get (str "Resources") p = Some (ODict r)
    /\ dict_get (str "Font") r = Some (ODict fd).

(** The name the registration gives to the [i]-th new font. *)
Definition font_name (i : nat) : pystr := str "F" ++ py_fmt_d (N.of_nat i).

(** Registering the fonts of a list, one after the other. *)
Fixpoint register_all (fonts : list Font) : M Obj (list pystr) :=
  match fonts with
  | [] => ret []
  | font :: rest =>
      (name <- _get_font_resource_name font;;
       names <- register_all rest;;
       ret (name :: names))%py
  end.

(** The font dictionary after the fonts of [done] were registered, in
    order, on a page that had none. *)
Definition numbered (done : list Font) : list (pystr * Obj) :=
  imap (fun i f => (font_name (S i), OFont f)) done.

(** ** Properties of the encoder *)

Lemma ascii_loop_concat (text sOut : pystr) :
  ascii_loop text sOut = sOut ++ concat (escape <$> text).
Proof.
  revert sOut. induction text as [|c rest IH]; intros sOut; simpl.
  - by rewrite app_nil_r.
  - rewrite IH. by rewrite <- app_assoc.
Qed.

Lemma escape_control (n : nat) :
  (n < 32)%nat -> escape (N.of_nat n) = literal_escape_table (N.of_nat n).
Proof.
  intros Hn.
  do 32 (destruct n as [|n]; [vm_compute; reflexivity|]).
  lia.
Qed.

Lemma escape_table (c : N) : escape c = literal_escape_table c.
Proof.
  destruct (decide (c < 32)%N) as [Hlt|Hge].
  - rewrite <- (N2Nat.id c). apply escape_control. lia.
  - unfold escape, literal_escape_table.
    assert (E : forall k, (k < 32)%N -> (c =? k)%N = false)
      by (intros k Hk; apply N.eqb_neq; lia).
    rewrite !E by lia.
    assert ((0 <=? c)%N && (c <? 8)%N = false) as ->
      by (apply andb_false_iff; right; apply N.ltb_ge; lia).
    assert ((8 <=? c)%N && (c <? 32)%N = false) as ->
      by (apply andb_false_iff; right; apply N.ltb_ge; lia).
    do 5 (destruct (decide (c = _)) as [?|_]; [lia|]).
    destruct (decide (c ∈ str "()\")) as [Hin|Hin].
    + assert (Hc : c = 40%N \/ c = 41%N \/ c = 92%N).
      { unfold str in Hin. cbn in Hin.
        rewrite !elem_of_cons, elem_of_nil in Hin. tauto. }
      destruct Hc as [->| [->| ->]]; reflexivity.
    + assert (c <> 40%N /\ c <> 41%N /\ c <> 92%N) as (H40 & H41 & H92).
      { unfold str in Hin. cbn in Hin.
        rewrite !elem_of_cons, elem_of_nil in Hin. tauto. }
      apply N.eqb_neq in H40, H41, H92. rewrite H40, H41, H92. simpl.
      destruct (decide (c < 8)%N) as [?|_]; [lia|].
      destruct (decide (8 <= c <= 31)%N) as [?|_]; [lia|]. reflexivity.
Qed.

(** C6. In literal mode each character of the text is replaced, in order,
    by its entry in the escape table (two-character escapes for carriage
    return, line feed, tab, backspace and form feed; a backslash before
    parentheses and backslash; a backslash and three octal digits for the
    other code points below 32; itself otherwise), and the result is put
    between parentheses and followed by the Tj operator. *)
Theorem write_text_bytes_in_ascii_table (text : pystr) :
  _write_text_bytes_in_ascii text
  = str "(" ++ concat (literal_escape_table <$> text) ++ str ") Tj".
Proof.
  unfold _write_text_bytes_in_ascii. rewrite ascii_loop_concat. simpl.
  do 3 f_equal. apply list_fmap_ext. intros _ c _. apply escape_table.
Qed.

Lemma hex_mode_false_iff (font : Font) (text : pystr) :
  hex_mode font text = false <-> all_native font text.
Proof.
  unfold all_native. induction text as [|c rest IH].
  - split; [constructor | reflexivity].
  - cbn [hex_mode]. unfold ord_ne_cid.
    destruct (unicode_to_character_identifier font c) as [z|] eqn:E.
    + destruct (Z.eqb_spec (Z.of_N c) z) as [Heq|Hne]; cbn [negb].
      * rewrite IH. split.
        -- intros Hall. constructor; [congruence | assumption].
        -- by inversion 1.
      * split; [discriminate | inversion 1; congruence].
    + split; [discriminate | inversion 1; congruence].
Qed.

Lemma write_text_bytes_cases (font : Font) (text : pystr) :
  _write_text_bytes font text
  = if decide (all_native font text)
    then Ok (_write_text_bytes_in_ascii text)
    else _write_text_bytes_in_hex font text.
Proof.
  unfold _write_text_bytes.
  destruct (hex_mode font text) eqn:E; case_decide as Hn; try reflexivity.
  - apply hex_mode_false_iff in Hn. congruence.
  - apply hex_mode_false_iff in E. contradiction.
Qed.

(** C3. The encoder takes the literal branch exactly when every character
    of the text has its identifier equal to its code point, and the hex
    branch for the whole text otherwise. *)
Theorem write_text_bytes_mode (font : Font) (text : pystr) :
  _write_text_bytes font text
  = if decide (all_native font text)
    then Ok (_write_text_bytes_in_ascii text)
    else _write_text_bytes_in_hex font text.
Proof.
  unfold _write_text_bytes.
  destruct (hex_mode font text) eqn:E; case_decide as Hn; try reflexivity.
  - apply hex_mode_false_iff in Hn. congruence.
  - apply hex_mode_false_iff in E. contradiction.
Qed.

Lemma hex_loop_unrepresentable (font : Font) (text sOut : pystr) (c : N) :
  c ∈ text ->
  unicode_to_character_identifier font c = None ->
  hex_loop font text sOut = Raise AssertionError.
Proof.
  intros Hin Hc. revert sOut.
  induction text as [|c' rest IH]; intros sOut; [by inversion Hin|].
  simpl. destruct (unicode_to_character_identifier font c') as [z|] eqn:E.
  - apply IH. inversion Hin; subst; [congruence | assumption].
  - reflexivity.
Qed.

(** C4. A text with a character that has no identifier under the font is
    not encoded: the call raises, and no operator string is returned. *)
Theorem write_text_bytes_unrepresentable (font : Font) (text : pystr) (c : N) :
  c ∈ text ->
  unicode_to_character_identifier font c = None ->
  _write_text_bytes font text = Raise AssertionError.
Proof.
  intros Hin Hc. rewrite write_text_bytes_cases.
  case_decide as Hn.
  - unfold all_native in Hn. rewrite Forall_forall in Hn.
    specialize (Hn c Hin). congruence.
  - unfold _write_text_bytes_in_hex.
    by rewrite (hex_loop_unrepresentable font text [] c).
Qed.

(** ** Properties of font registration *)

Lemma dict_get_set_eq {V} (k : pystr) (v : V) (d : list (pystr * V)) :
  dict_get k (dict_set k v d) = Some v.
Proof.
  induction d as [|[k' v'] rest IH]; simpl.
  - by rewrite decide_True.
  - destruct (decide (k = k')) as [->|Hne]; simpl.
    + by rewrite decide_True.
    + by rewrite decide_False.
Qed.

Lemma dict_set_set {V} (k : pystr) (v w : V) (d : list (pystr * V)) :
  dict_set k w (dict_set k v d) = dict_set k w d.
Proof.
  induction d as [|[k' v'] rest IH]; simpl.
  - by rewrite decide_True.
  - destruct (decide (k = k')) as [->|Hne]; simpl.
    + by rewrite decide_True.
    + rewrite decide_False by done. by rewrite IH.
Qed.

Lemma dict_set_fresh {V} (k : pystr) (v : V) (d : list (pystr * V)) :
  k ∉ d.*1 -> dict_set k v d = d ++ [(k, v)].
Proof.
  induction d as [|[k' v'] rest IH]; simpl; intros Hk; [done|].
  rewrite not_elem_of_cons in Hk. destruct Hk as [Hne Hk].
  rewrite decide_False by done. by rewrite IH.
Qed.

Lemma keys_of_font_set (font : Font) (k : pystr) (d : list (pystr * Obj)) :
  keys_of_font font d = [] ->
  keys_of_font font (dict_set k (OFont font) d) = [k].
Proof.
  induction d as [|[k' v'] rest IH]; simpl; intros Hd.
  - by rewrite bool_decide_eq_true_2.
  - destruct (eq_font v' font) eqn:E; [discriminate|].
    destruct (decide (k = k')) as [->|Hne]; simpl.
    + rewrite bool_decide_eq_true_2 by done. by rewrite Hd.
    + rewrite E. by apply IH.
Qed.

Lemma get_font_resource_name_complete (font : Font) (p r fd : list (pystr * Obj)) :
  dict_get (str "Resources") p = Some (ODict r) ->
  dict_get (str "Font") r = Some (ODict fd) ->
  _get_font_resource_name font (ODict p)
  = match keys_of_font font fd with
    | name :: _ => (Ok name, ODict p)
    | [] => (Ok (new_name fd), store_font (new_name fd) font (ODict p))
    end.
Proof.
  intros Hr Hf.
  unfold _get_font_resource_name, store_font, new_name, resources_font_setitem,
    resources_font, resources_setitem, page_getitem, page_setitem, bind, lift,
    ret.
  generalize dependent (str "Resources"). intros kr Hr.
  generalize dependent (str "Font"). intros kf Hf.
  repeat first [rewrite Hr | rewrite Hf | progress cbn].
  destruct (keys_of_font font fd) as [|name rest]; [|reflexivity].
  repeat first [rewrite Hr | rewrite Hf | progress cbn]. reflexivity.
Qed.

Lemma has_fonts_registered (page : Obj) (fd : list (pystr * Obj)) :
  has_fonts page fd -> registered_fonts page = Some fd.
Proof.
  intros (p & r & -> & Hr & Hf). unfold registered_fonts. by rewrite Hr, Hf.
Qed.

Lemma with_resources_has_fonts (page : Obj) (fd : list (pystr * Obj)) :
  registered_fonts page = Some fd -> has_fonts (with_resources page) fd.
Proof.
  unfold registered_fonts, with_resources, has_fonts.
  destruct page as [p| |]; try discriminate.
  destruct (dict_get (str "Resources") p) as [[r| |]|] eqn:Hr; try discriminate.
  - destruct (dict_get (str "Font") r) as [[fd'| |]|] eqn:Hf; try discriminate.
    + intros [= ->]. eauto.
    + intros [= <-]. eexists _, _. split; [reflexivity|].
      rewrite dict_get_set_eq. split; [reflexivity|].
      by rewrite dict_get_set_eq.
  - intros [= <-]. eexists _, _. split; [reflexivity|].
    rewrite dict_get_set_eq. split; reflexivity.
Qed.

Lemma get_font_resource_name_with_resources (font : Font) (page : Obj)
  (fd : list (pystr * Obj)) :
  registered_fonts page = Some fd ->
  _get_font_resource_name font page
  = _get_font_resource_name font (with_resources page).
Proof.
  unfold registered_fonts, with_resources.
  destruct page as [p| |]; try discriminate.
  destruct (dict_get (str "Resources") p) as [[r| |]|] eqn:Hr; try discriminate.
  - destruct (dict_get (str "Font") r) as [[fd'| |]|] eqn:Hf; try discriminate;
      [reflexivity|].
    intros _.
    unfold _get_font_resource_name, resources_font_setitem,
      resources_font, resources_setitem, page_getitem, page_setitem, bind,
      lift, ret.
    generalize dependent (str "Resources"). intros kr Hr.
    generalize dependent (str "Font"). intros kf Hf.
    repeat first [rewrite Hr | rewrite Hf | rewrite dict_get_set_eq
                 | rewrite dict_set_set | progress cbn].
    reflexivity.
  - intros _.
    unfold _get_font_resource_name, resources_font_setitem,
      resources_font, resources_setitem, page_getitem, page_setitem, bind,
      lift, ret.
    generalize dependent (str "Resources"). intros kr Hr.
    generalize (str "Font"). intros kf.
    repeat first [rewrite Hr | rewrite decide_True by reflexivity
                 | rewrite dict_get_set_eq | rewrite dict_set_set
                 | progress cbn].
    reflexivity.
Qed.

Lemma of_digits_snoc (base : N) (ds : list N) (d : N) :
  of_digits base (ds ++ [d]) = (of_digits base ds * base + d)%N.
Proof. unfold of_digits. by rewrite fold_left_app. Qed.

Lemma of_to_digits_fuel (base : N) (f : nat) (n : N) :
  (2 <= base)%N -> (n < 2 ^ N.of_nat f)%N ->
  of_digits base (to_digits_fuel base (S f) n) = n.
Proof.
  intros Hb. revert n. induction f as [|f IH]; intros n Hn.
  - assert (n = 0%N) as -> by (cbn in Hn; lia).
    cbn [to_digits_fuel]. destruct (N.ltb_spec 0 base); [reflexivity | lia].
  - cbn [to_digits_fuel]. destruct (N.ltb_spec n base) as [Hlt|Hge].
    + unfold of_digits. cbn. lia.
    + change (if (n / base <? base)%N then [(n / base)%N]
              else to_digits_fuel base f (n / base / base)
                   ++ [((n / base) mod base)%N])
        with (to_digits_fuel base (S f) (n / base)).
      rewrite of_digits_snoc, IH.
      * rewrite N.mul_comm. symmetry. apply N.div_mod. lia.
      * rewrite Nat2N.inj_succ, N.pow_succ_r' in Hn.
        apply N.Div0.div_lt_upper_bound. nia.
Qed.

Lemma of_to_digits (base n : N) :
  (2 <= base)%N -> of_digits base (to_digits base n) = n.
Proof.
  intros Hb. unfold to_digits. apply of_to_digits_fuel; [assumption|].
  rewrite N2Nat.id. apply N.size_gt.
Qed.

Lemma char_digit_char (d : N) : char_digit (digit_char d) = d.
Proof.
  unfold char_digit, digit_char.
  destruct (N.ltb_spec d 10).
  - destruct (N.ltb_spec (48 + d) 58); lia.
  - destruct (N.ltb_spec (87 + d) 58); lia.
Qed.

Lemma numeral_inj (base n m : N) :
  (2 <= base)%N -> numeral base n = numeral base m -> n = m.
Proof.
  intros Hb Heq.
  assert (E : forall k, char_digit <$> numeral base k = to_digits base k).
  { intros k. unfold numeral. rewrite <- list_fmap_compose.
    rewrite <- (list_fmap_id (to_digits base k)) at 2.
    apply list_fmap_ext. intros _ d _. apply char_digit_char. }
  rewrite <- (of_to_digits base n), <- (of_to_digits base m) by assumption.
  by rewrite <- !E, Heq.
Qed.

Lemma font_name_inj (i j : nat) : font_name i = font_name j -> i = j.
Proof.
  unfold font_name, py_fmt_d. intros Heq. apply app_inv_head in Heq.
  apply numeral_inj in Heq; lia.
Qed.

Lemma get_font_resource_name_step (font : Font) (page : Obj)
  (fd : list (pystr * Obj)) :
  registered_fonts page = Some fd ->
  exists name page' fd',
    _get_font_resource_name font page = (Ok name, page')
    /\ has_fonts page' fd'
    /\ match keys_of_font font fd with
       | k :: _ => name = k /\ fd' = fd
       | [] => name = new_name fd /\ fd' = dict_set name (OFont font) fd
       end.
Proof.
  intros Hreg.
  rewrite (get_font_resource_name_with_resources font page fd Hreg).
  destruct (with_resources_has_fonts page fd Hreg) as (p & r & -> & Hr & Hf).
  rewrite (get_font_resource_name_complete font p r fd Hr Hf).
  destruct (keys_of_font font fd) as [|k rest] eqn:Hk.
  - eexists _, _, _. split; [reflexivity|]. split; [|split; reflexivity].
    unfold store_font. rewrite Hr, Hf.
    eexists _, _. split; [reflexivity|].
    rewrite dict_get_set_eq. split; [reflexivity|].
    by rewrite dict_get_set_eq.
  - eexists _, _, _. split; [reflexivity|]. split; [|split; reflexivity].
    eexists _, _. eauto.
Qed.

Lemma get_font_resource_name_again (font : Font) (page : Obj)
  (fd : list (pystr * Obj)) (name : pystr) (rest : list pystr) :
  has_fonts page fd ->
  keys_of_font font fd = name :: rest ->
  _get_font_resource_name font page = (Ok name, page).
Proof.
  intros (p & r & -> & Hr & Hf) Hk.
  rewrite (get_font_resource_name_complete font p r fd Hr Hf). by rewrite Hk.
Qed.

Lemma numbered_keys (done : list Font) (k : pystr) :
  k ∈ (numbered done).*1 ->
  exists i, (i < length done)%nat /\ k = font_name (S i).
Proof.
  unfold numbered. rewrite list_elem_of_fmap.
  intros ([k' v] & -> & Hin). apply elem_of_lookup_imap in Hin.
  destruct Hin as (i & f & [= -> ->] & Hi). exists i. split; [|reflexivity].
  by apply lookup_lt_Some in Hi.
Qed.

Lemma numbered_no_key (done : list Font) (font : Font) :
  font ∉ done -> keys_of_font font (numbered done) = [].
Proof.
  unfold numbered. generalize S as g.
  induction done as [|f rest IH]; intros g Hf; [reflexivity|].
  rewrite not_elem_of_cons in Hf. destruct Hf as [Hne Hf]. cbn.
  rewrite bool_decide_eq_false_2 by congruence.
  apply (IH (fun i => g (S i))). assumption.
Qed.

Lemma register_all_fresh (fonts done : list Font) (page : Obj) :
  registered_fonts page = Some (numbered done) ->
  NoDup (done ++ fonts) ->
  exists page',
    register_all fonts page
    = (Ok (font_name <$> seq (S (length done)) (length fonts)), page').
Proof.
  revert done page. induction fonts as [|font rest IH]; intros done page Hreg Hnd.
  - eexists. reflexivity.
  - assert (Hfresh : font ∉ done).
    { apply NoDup_app in Hnd. destruct Hnd as (_ & Hd & _).
      intros Hin. apply (Hd font Hin). constructor. }
    destruct (get_font_resource_name_step font page _ Hreg)
      as (name & page1 & fd1 & Hrun & Hhas & Hcase).
    rewrite (numbered_no_key done font Hfresh) in Hcase.
    destruct Hcase as [Hname Hfd1].
    assert (Hn : name = font_name (S (length done))).
    { rewrite Hname. unfold new_name, font_name, numbered.
      rewrite length_imap. do 3 f_equal. lia. }
    assert (Hfd : fd1 = numbered (done ++ [font])).
    { rewrite Hfd1. rewrite dict_set_fresh.
      - unfold numbered. rewrite imap_app. cbn. rewrite Nat.add_0_r.
        by rewrite Hn.
      - intros Hin. apply numbered_keys in Hin. destruct Hin as (i & Hi & Hk).
        rewrite Hn in Hk. apply font_name_inj in Hk. lia. }
    destruct (IH (done ++ [font]) page1) as [page' Hrest].
    + apply has_fonts_registered. by rewrite <- Hfd.
    + by rewrite <- app_assoc.
    + exists page'. cbn [register_all]. unfold bind at 1. rewrite Hrun.
      unfold bind at 1. rewrite Hrest. unfold ret. cbn [fmap list_fmap length seq].
      rewrite length_app, Nat.add_1_r in *. by rewrite Hn.
Qed.

(** C7. On a page whose font dictionary is well formed (or still to be
    created), registering a font returns a name, and registering the same
    font again on the resulting page returns the same name and changes
    nothing; a font that was not yet present gets the name F followed by
    the number of registered fonts plus one; and registering pairwise
    distinct fonts one after the other, on a page without fonts or with
    the fonts registered before them in this way, returns the next names
    in order, F1, F2, ... from the start, pairwise distinct. *)
Theorem get_font_resource_name_names :
  (forall (font : Font) (page : Obj) (fd : list (pystr * Obj)),
     registered_fonts page = Some fd ->
     exists name page',
       _get_font_resource_name font page = (Ok name, page')
       /\ _get_font_resource_name font page' = (Ok name, page')
       /\ (keys_of_font font fd = [] ->
           name = str "F" ++ py_fmt_d (N.of_nat (length fd + 1))))
  /\ (forall (done fonts : list Font) (page : Obj),
        registered_fonts page = Some (numbered done) ->
        NoDup (done ++ fonts) ->
        exists page',
          register_all fonts page
          = (Ok (font_name <$> seq (S (length done)) (length fonts)), page')
          /\ NoDup (font_name <$> seq (S (length done)) (length fonts))).
Proof.
  split.
  - intros font page fd Hreg.
    destruct (get_font_resource_name_step font page fd Hreg)
      as (name & page' & fd' & Hrun & Hhas & Hcase).
    exists name, page'. split; [assumption|].
    destruct (keys_of_font font fd) as [|k rest] eqn:Hk.
    + destruct Hcase as [Hname ->]. split; [|intros _; exact Hname].
      eapply get_font_resource_name_again; [eassumption|].
      by apply keys_of_font_set.
    + destruct Hcase as [-> ->]. split; [|discriminate].
      eapply get_font_resource_name_again; eassumption.
  - intros done fonts page Hreg Hnd.
    destruct (register_all_fresh fonts done page Hreg Hnd) as [page' Hrun].
    exists page'. split; [exact Hrun|].
    apply NoDup_fmap_2; [|apply NoDup_seq].
    intros i j. apply font_name_inj.
Qed.

(** ** Properties of the layout *)

Lemma hex_loop_representable (font : Font) (text sOut : pystr) :
  (forall c, c ∈ text -> unicode_to_character_identifier font c <> None) ->
  hex_loop font text sOut
  = Ok (sOut ++ concat ((fun cid => str "<" ++ hex_rep cid ++ str ">")
                          <$> encoded_bytes font text)).
Proof.
  revert sOut. induction text as [|c rest IH]; intros sOut Hrep.
  - cbn. by rewrite app_nil_r.
  - cbn [hex_loop encoded_bytes fmap list_fmap].
    destruct (unicode_to_character_identifier font c) as [z|] eqn:E.
    + rewrite IH by (intros c' Hc'; apply Hrep; by constructor).
      cbn [or_0 concat]. by rewrite <- !app_assoc.
    + exfalso. apply (Hrep c); [constructor | assumption].
Qed.

Lemma encoded_bytes_identifiers (font : Font) (text : pystr) :
  (forall c, c ∈ text -> unicode_to_character_identifier font c <> None) ->
  Forall2 (fun c cid => unicode_to_character_identifier font c = Some cid)
          text (encoded_bytes font text).
Proof.
  induction text as [|c rest IH]; intros Hrep; [constructor|].
  cbn. constructor.
  - destruct (unicode_to_character_identifier font c) eqn:E; [reflexivity|].
    exfalso. apply (Hrep c); [constructor | assumption].
  - apply IH. intros c' Hc'. apply Hrep. by constructor.
Qed.

Lemma write_text_bytes_representable (font : Font) (text : pystr) :
  (forall c, c ∈ text -> unicode_to_character_identifier font c <> None) ->
  _write_text_bytes font text
  = Ok (if decide (all_native font text)
        then _write_text_bytes_in_ascii text
        else hex_array (encoded_bytes font text)).
Proof.
  intros Hrep. rewrite write_text_bytes_cases. case_decide; [reflexivity|].
  unfold _write_text_bytes_in_hex, hex_array.
  by rewrite hex_loop_representable.
Qed.

(** C9. A layout call on a chunk whose font represents every character of
    the text returns the rectangle at [x] of the bounding box and at [y +
    height - font_size], of height [font_size], whose width is the advance
    width the metrics provider gives for the identifiers [ids] of the
    characters of the text; these are the identifiers the encoder wrote
    (in hex mode the operand shows exactly [ids], in literal mode they are
    the code points of the text). The same rectangle is stored as the
    bounding box of the chunk. *)
Theorem do_layout_without_padding_rectangle
  (self : ChunkOfText) (page : Obj) (bb : Rectangle D) (font_size : D)
  (fd : list (pystr * Obj)) :
  font_bool (_font self) = true ->
  _font_size self = Some font_size ->
  registered_fonts page = Some fd ->
  (forall c, c ∈ _text self ->
             unicode_to_character_identifier (_font self) c <> None) ->
  (forall content p, (_append_to_content_stream content p).1 = Ok tt) ->
  exists (ids : list Z) (page' : Obj),
    let layout_rect :=
      mkRectangle (x bb) (dsub (dadd (y bb) (height bb)) font_size)
        (get_width_in_text_space ids (_font self) font_size) font_size in
    _do_layout_without_padding self page bb
    = (Ok layout_rect, (set_bounding_box layout_rect self, page'))
    /\ Forall2
         (fun c cid =>
            unicode_to_character_identifier (_font self) c = Some cid)
         (_text self) ids
    /\ _write_text_bytes (_font self) (_text self)
       = Ok (if decide (all_native (_font self) (_text self))
             then _write_text_bytes_in_ascii (_text self)
             else hex_array ids)
    /\ (all_native (_font self) (_text self) ->
        ids = Z.of_N <$> _text self).
Proof.
  intros Hfont Hsize Hreg Hrep Happend.
  exists (encoded_bytes (_font self) (_text self)).
  destruct (get_font_resource_name_step (_font self) page fd Hreg)
    as (name & page1 & fd1 & Hrun & _ & _).
  pose proof (write_text_bytes_representable _ _ Hrep) as Htj.
  unfold _do_layout_without_padding, assert. rewrite Hfont, Hsize.
  destruct (to_rgb (_font_color self)) as [[red green] blue].
  unfold bind at 1. unfold ret at 1.
  unfold bind at 1. unfold ret at 1.
  unfold bind at 1. unfold on_page at 1. cbn [fst snd]. rewrite Hrun.
  unfold bind at 1. unfold lift at 1. rewrite Htj.
  unfold bind at 1. unfold on_page at 1. cbn [fst snd].
  match goal with
  | |- context [_append_to_content_stream ?c ?p] =>
      pose proof (Happend c p) as Ha;
      destruct (_append_to_content_stream c p) as [res page2]
  end.
  cbn in Ha. subst res. exists page2. cbn zeta.
  split; [reflexivity|]. split; [by apply encoded_bytes_identifiers|].
  split; [reflexivity|].
  intros Hall. unfold all_native in Hall. unfold encoded_bytes.
  apply list_fmap_ext. intros i c Hc.
  rewrite Forall_forall in Hall.
  rewrite (Hall c); [reflexivity|]. by apply list_elem_of_lookup_2 in Hc.
Qed.

(** ** Further properties of the encoder *)

Lemma to_digits_nonempty (base n : N) : to_digits base n <> [].
Proof.
  unfold to_digits. cbn [to_digits_fuel].
  destruct (n <? base)%N; [discriminate|].
  intros Happ. by apply app_eq_nil in Happ as [_ ?].
Qed.

Lemma to_digits_fuel_bound (base : N) (fuel : nat) (n : N) :
  (0 < base)%N -> Forall (fun d => (d < base)%N) (to_digits_fuel base fuel n).
Proof.
  intros Hb. revert n. induction fuel as [|fuel IH]; intros n; [constructor|].
  cbn [to_digits_fuel]. destruct (N.ltb_spec n base).
  - by repeat constructor.
  - apply Forall_app. split; [apply IH|]. repeat constructor.
    apply N.mod_lt. lia.
Qed.

Lemma char_digit_numeral (base n : N) :
  char_digit <$> numeral base n = to_digits base n.
Proof.
  unfold numeral. rewrite <- list_fmap_compose.
  rewrite <- (list_fmap_id (to_digits base n)) at 2.
  apply list_fmap_ext. intros _ d _. apply char_digit_char.
Qed.

Lemma of_digits_zero (base : N) (ds : list N) :
  of_digits base (0%N :: ds) = of_digits base ds.
Proof. unfold of_digits. cbn [fold_left]. by rewrite N.mul_0_l. Qed.

(** A character among [0-9a-f]. *)
Definition hex_digit (ch : N) : Prop :=
  (48 <= ch <= 57)%N \/ (97 <= ch <= 102)%N.

Lemma digit_char_hex (d : N) : (d < 16)%N -> hex_digit (digit_char d).
Proof.
  intros Hd. unfold hex_digit, digit_char. destruct (N.ltb_spec d 10); lia.
Qed.

Lemma hex_rep_unpadded_nonempty (cid : Z) : drop 2 (py_hex cid) <> [].
Proof.
  unfold py_hex. destruct (cid <? 0)%Z; cbn; [discriminate|].
  unfold numeral. intros Hnil. apply fmap_nil_inv in Hnil.
  by apply to_digits_nonempty in Hnil.
Qed.

(** X1. Each identifier is written with an even number of characters, and
    at least two. *)
Theorem hex_rep_even (cid : Z) :
  (length (hex_rep cid) mod 2 = 0)%nat /\ (2 <= length (hex_rep cid))%nat.
Proof.
  unfold hex_rep. pose proof (hex_rep_unpadded_nonempty cid) as Hne.
  destruct (drop 2 (py_hex cid)) as [|a h]; [done|]. clear Hne.
  destruct (Nat.eqb_spec (length (a :: h) mod 2) 1) as [Hodd|Heven].
  - change (length (str "0" ++ a :: h)) with (S (length (a :: h))).
    cbn [length] in *. split; [|lia].
    rewrite <- Nat.add_1_r, Nat.Div0.add_mod, Hodd by lia. reflexivity.
  - pose proof (Nat.mod_upper_bound (length (a :: h)) 2). split; [lia|].
    destruct h as [|b h]; [cbn in Heven; lia | cbn; lia].
Qed.

(** X2. For an identifier that is not negative, the characters written
    are hexadecimal digits, and read as a hexadecimal number they give
    the identifier back. *)
Theorem hex_rep_value (cid : Z) :
  (0 <= cid)%Z ->
  Forall hex_digit (hex_rep cid)
  /\ of_digits 16 (char_digit <$> hex_rep cid) = Z.to_N cid.
Proof.
  intros Hcid. unfold hex_rep.
  assert (Hh : drop 2 (py_hex cid) = numeral 16 (Z.to_N cid)).
  { unfold py_hex. destruct (Z.ltb_spec cid 0); [lia|]. cbn.
    by rewrite Zabs2N.abs_N_nonneg. }
  rewrite Hh.
  assert (Hdigits : Forall hex_digit (numeral 16 (Z.to_N cid))).
  { unfold numeral. apply Forall_fmap.
    eapply Forall_impl; [apply to_digits_fuel_bound; lia|].
    intros d Hd. by apply digit_char_hex. }
  assert (Hval : of_digits 16 (char_digit <$> numeral 16 (Z.to_N cid))
                 = Z.to_N cid).
  { rewrite char_digit_numeral. apply of_to_digits. lia. }
  destruct (length (numeral 16 (Z.to_N cid)) mod 2 =? 1)%nat.
  - split.
    + change (str "0" ++ numeral 16 (Z.to_N cid))
        with (48%N :: numeral 16 (Z.to_N cid)).
      constructor; [unfold hex_digit; lia | exact Hdigits].
    + change (char_digit <$> str "0" ++ numeral 16 (Z.to_N cid))
        with (0%N :: (char_digit <$> numeral 16 (Z.to_N cid))).
      by rewrite of_digits_zero.
  - split; assumption.
Qed.

(** X3. The encoder raises only for a character without identifier: then
    it raises [AssertionError], and otherwise it returns the literal
    string or the array of the identifiers of the text. *)
Theorem write_text_bytes_result (font : Font) (text : pystr) :
  _write_text_bytes font text
  = if decide (Exists (fun c => unicode_to_character_identifier font c = None)
                      text)
    then Raise AssertionError
    else Ok (if decide (all_native font text)
             then _write_text_bytes_in_ascii text
             else hex_array (encoded_bytes font text)).
Proof.
  case_decide as Hex.
  - apply Exists_exists in Hex. destruct Hex as (c & Hin & Hc).
    rewrite write_text_bytes_cases. case_decide as Hn.
    + unfold all_native in Hn. rewrite Forall_forall in Hn.
      specialize (Hn c Hin). congruence.
    + unfold _write_text_bytes_in_hex.
      by rewrite (hex_loop_unrepresentable font text [] c).
  - apply write_text_bytes_representable. intros c Hin Hc.
    apply Hex. apply Exists_exists. eauto.
Qed.

Lemma escape_printable (c : N) : Forall (fun ch => (32 <= ch)%N) (escape c).
Proof.
  rewrite escape_table. unfold literal_escape_table, backslash.
  repeat case_decide;
    try match goal with
        | Hin : _ ∈ str _ |- _ =>
            unfold str in Hin; cbn in Hin;
            rewrite !elem_of_cons, elem_of_nil in Hin
        end;
    unfold str; cbn;
    repeat first
      [ apply Forall_nil_2
      | apply Forall_cons_2;
        [cbv beta;
         first [lia | apply N.le_trans with 48%N; [lia | apply N.le_add_r]]|] ].
Qed.

(** X4. The literal string has no control character in it, whatever the
    text: every character written has a code point of 32 or more. *)
Theorem write_text_bytes_in_ascii_printable (text : pystr) :
  Forall (fun ch => (32 <= ch)%N) (_write_text_bytes_in_ascii text).
Proof.
  unfold _write_text_bytes_in_ascii. rewrite ascii_loop_concat.
  assert (Hs : forall s, Forall (fun ch => (32 <= ch)%N) (str s) <->
                         forallb (fun ch => (32 <=? ch)%N) (str s) = true).
  { intros s. rewrite forallb_forall, Forall_forall.
    split; intros Hall ch Hch; [apply N.leb_le | apply N.leb_le];
      apply Hall; by apply list_elem_of_In. }
  apply Forall_app. split; [by apply Hs|].
  apply Forall_app. split; [|by apply Hs].
  apply Forall_concat. apply Forall_fmap. apply Forall_true.
  intros c. apply escape_printable.
Qed.

(** *** Reading a literal string back *)

Definition octal_digit (ch : N) : bool := ((48 <=? ch) && (ch <=? 55))%N.

(** The text a string body stands for: a backslash announces one of the
    letter escapes, an escaped delimiter or three octal digits; a bare
    parenthesis is not accepted. *)
Fixpoint unescape (s : pystr) : option pystr :=
  match s with
  | [] => Some []
  | ch :: rest =>
      if (ch =? 92)%N then
        match rest with
        | [] => None
        | e :: rest1 =>
            if (e =? 114)%N then (13%N ::.) <$> unescape rest1
            else if (e =? 110)%N then (10%N ::.) <$> unescape rest1
            else if (e =? 116)%N then (9%N ::.) <$> unescape rest1
            else if (e =? 98)%N then (8%N ::.) <$> unescape rest1
            else if (e =? 102)%N then (12%N ::.) <$> unescape rest1
            else if ((e =? 40) || (e =? 41) || (e =? 92))%N
                 then (e ::.) <$> unescape rest1
            else if octal_digit e then
              match rest1 with
              | d2 :: d3 :: rest3 =>
                  if octal_digit d2 && octal_digit d3
                  then (((e - 48) * 64 + (d2 - 48) * 8 + (d3 - 48))%N ::.)
                         <$> unescape rest3
                  else None
              | _ => None
              end
            else None
        end
      else if ((ch =? 40) || (ch =? 41))%N then None
      else (ch ::.) <$> unescape rest
  end.

(** The text of a whole operand [(...) Tj]. *)
Definition read_literal (out : pystr) : option pystr :=
  match out with
  | ch :: rest =>
      let n := (length rest - 4)%nat in
      if (ch =? 40)%N && bool_decide (drop n rest = str ") Tj")
      then unescape (take n rest)
      else None
  | [] => None
  end.

Lemma unescape_control (n : nat) (s : pystr) :
  (n < 32)%nat ->
  unescape (escape (N.of_nat n) ++ s) = (N.of_nat n ::.) <$> unescape s.
Proof.
  intros Hn.
  do 32 (destruct n as [|n]; [reflexivity|]).
  lia.
Qed.

Lemma unescape_escape (c : N) (s : pystr) :
  unescape (escape c ++ s) = (c ::.) <$> unescape s.
Proof.
  destruct (decide (c < 32)%N) as [Hlt|Hge].
  - rewrite <- (N2Nat.id c). apply unescape_control. lia.
  - rewrite escape_table. unfold literal_escape_table.
    do 5 (destruct (decide (c = _)) as [?|_]; [lia|]).
    destruct (decide (c ∈ str "()\")) as [Hin|Hin].
    + assert (Hc : c = 40%N \/ c = 41%N \/ c = 92%N).
      { unfold str in Hin. cbn in Hin.
        rewrite !elem_of_cons, elem_of_nil in Hin. tauto. }
      destruct Hc as [->| [->| ->]]; reflexivity.
    + assert (c <> 40%N /\ c <> 41%N /\ c <> 92%N) as (H40 & H41 & H92).
      { unfold str in Hin. cbn in Hin.
        rewrite !elem_of_cons, elem_of_nil in Hin. tauto. }
      destruct (decide (c < 8)%N) as [?|_]; [lia|].
      destruct (decide (8 <= c <= 31)%N) as [?|_]; [lia|].
      apply N.eqb_neq in H40, H41, H92. cbn [app unescape].
      by rewrite H92, H40, H41.
Qed.

Lemma unescape_body (text : pystr) :
  unescape (concat (escape <$> text)) = Some text.
Proof.
  induction text as [|c rest IH]; [reflexivity|].
  cbn [fmap list_fmap concat]. by rewrite unescape_escape, IH.
Qed.

(** X5. The literal string loses nothing: read back, the operand gives
    the text it was written from. *)
Theorem read_literal_write (text : pystr) :
  read_literal (_write_text_bytes_in_ascii text) = Some text.
Proof.
  unfold _write_text_bytes_in_ascii. rewrite ascii_loop_concat.
  cbn [app]. set (body := concat (escape <$> text)).
  change (str "(" ++ body ++ str ") Tj") with (40%N :: (body ++ str ") Tj")).
  unfold read_literal.
  replace (length (body ++ str ") Tj") - 4)%nat with (length body)
    by (rewrite length_app; cbn; lia).
  rewrite drop_app_length, take_app_length.
  rewrite bool_decide_eq_true_2 by reflexivity. cbn.
  apply unescape_body.
Qed.

(** ** Further properties of font registration *)

(** [page["Resources"][k]] *)
Definition resource (page : Obj) (k : pystr) : Result Obj :=
  rbind (getitem page (str "Resources")) (fun r => getitem r k).

Lemma dict_get_set_ne {V} (k k' : pystr) (v : V) (d : list (pystr * V)) :
  k <> k' -> dict_get k (dict_set k' v d) = dict_get k d.
Proof.
  intros Hne. induction d as [|[k'' v''] rest IH]; cbn.
  - by rewrite decide_False.
  - destruct (decide (k' = k'')) as [->|Hne']; cbn.
    + by rewrite !decide_False.
    + destruct (decide (k = k'')); [reflexivity | exact IH].
Qed.

Lemma dict_set_length {V} (k : pystr) (v : V) (d : list (pystr * V)) :
  (length d <= length (dict_set k v d))%nat.
Proof.
  induction d as [|[k' v'] rest IH]; cbn; [lia|].
  destruct (decide (k = k')); cbn; lia.
Qed.

Lemma dict_get_Some_key {V} (k : pystr) (v : V) (d : list (pystr * V)) :
  dict_get k d = Some v -> k ∈ d.*1.
Proof.
  induction d as [|[k' v'] rest IH]; cbn; [discriminate|].
  destruct (decide (k = k')) as [->|Hne]; intros Hget.
  - apply elem_of_cons. by left.
  - apply elem_of_cons. right. by apply IH.
Qed.

Lemma keys_of_font_first (font : Font) (d : list (pystr * Obj)) (k : pystr)
  (rest : list pystr) :
  NoDup d.*1 ->
  keys_of_font font d = k :: rest ->
  dict_get k d = Some (OFont font).
Proof.
  induction d as [|[k' v'] d IH]; cbn; intros Hnd Hkeys; [discriminate|].
  apply NoDup_cons in Hnd. destruct Hnd as [Hk' Hnd].
  destruct (eq_font v' font) eqn:E.
  - injection Hkeys as <- _. rewrite decide_True by reflexivity.
    destruct v' as [|f|]; try discriminate. cbn in E.
    apply bool_decide_eq_true in E. by subst f.
  - pose proof (IH Hnd Hkeys) as Hget.
    rewrite decide_False; [exact Hget|].
    intros ->. apply Hk'. by apply dict_get_Some_key in Hget.
Qed.

(** What the registration returns and what it makes of the page. *)
Lemma get_font_resource_name_run (font : Font) (page : Obj)
  (fd : list (pystr * Obj)) :
  registered_fonts page = Some fd ->
  _get_font_resource_name font page
  = match keys_of_font font fd with
    | name :: _ => (Ok name, with_resources page)
    | [] => (Ok (new_name fd),
             store_font (new_name fd) font (with_resources page))
    end.
Proof.
  intros Hreg.
  rewrite (get_font_resource_name_with_resources font page fd Hreg).
  destruct (with_resources_has_fonts page fd Hreg) as (p & r & -> & Hr & Hf).
  apply (get_font_resource_name_complete font p r fd Hr Hf).
Qed.

Lemma with_resources_getitem (page : Obj) (fd : list (pystr * Obj))
  (k : pystr) :
  registered_fonts page = Some fd ->
  k <> str "Resources" ->
  getitem (with_resources page) k = getitem page k.
Proof.
  unfold registered_fonts, with_resources. intros Hreg Hk.
  destruct page as [p| |]; try discriminate.
  destruct (dict_get (str "Resources") p) as [[r| |]|]; try discriminate.
  - destruct (dict_get (str "Font") r) as [[fd'| |]|]; try discriminate;
      [reflexivity|].
    cbn. by rewrite dict_get_set_ne.
  - cbn. by rewrite dict_get_set_ne.
Qed.

Lemma with_resources_resource (page : Obj) (fd : list (pystr * Obj))
  (k : pystr) :
  registered_fonts page = Some fd ->
  k <> str "Font" ->
  resource (with_resources page) k = resource page k.
Proof.
  unfold registered_fonts, with_resources, resource. intros Hreg Hk.
  destruct page as [p| |]; try discriminate.
  destruct (dict_get (str "Resources") p) as [[r| |]|] eqn:Hr;
    try discriminate.
  - destruct (dict_get (str "Font") r) as [[fd'| |]|]; try discriminate;
      [reflexivity|].
    cbn [getitem rbind]. rewrite dict_get_set_eq, Hr. cbn [getitem rbind].
    by rewrite dict_get_set_ne.
  - cbn [getitem rbind]. rewrite dict_get_set_eq, Hr. cbn [getitem rbind dict_get].
    by rewrite decide_False.
Qed.

Lemma store_font_frame (name : pystr) (font : Font) (page : Obj)
  (fd : list (pystr * Obj)) :
  has_fonts page fd ->
  has_fonts (store_font name font page) (dict_set name (OFont font) fd)
  /\ (forall k, k <> str "Resources" ->
                getitem (store_font name font page) k = getitem page k)
  /\ (forall k, k <> str "Font" ->
                resource (store_font name font page) k = resource page k).
Proof.
  intros (p & r & -> & Hr & Hf). unfold store_font, resource.
  rewrite Hr, Hf. split; [|split].
  - eexists _, _. split; [reflexivity|].
    rewrite dict_get_set_eq. split; [reflexivity|].
    by rewrite dict_get_set_eq.
  - intros k Hk. cbn [getitem]. by rewrite dict_get_set_ne.
  - intros k Hk. cbn [getitem rbind]. rewrite dict_get_set_eq, Hr.
    cbn [getitem rbind]. by rewrite dict_get_set_ne.
Qed.

(** X6. After a registration on a page whose font dictionary has distinct
    keys, the font is found in [page["Resources"]["Font"]] under the name
    that was returned. *)
Theorem get_font_resource_name_lookup (font : Font) (page : Obj)
  (fd : list (pystr * Obj)) :
  registered_fonts page = Some fd ->
  NoDup fd.*1 ->
  exists name page',
    _get_font_resource_name font page = (Ok name, page')
    /\ rbind (resource page' (str "Font")) (fun fonts => getitem fonts name)
       = Ok (OFont font).
Proof.
  intros Hreg Hnd.
  destruct (get_font_resource_name_step font page fd Hreg)
    as (name & page' & fd' & Hrun & (p & r & -> & Hr & Hf) & Hcase).
  exists name, (ODict p). split; [exact Hrun|].
  unfold resource, getitem. cbn [rbind]. rewrite Hr. cbn [rbind].
  rewrite Hf. cbn [rbind].
  destruct (keys_of_font font fd) as [|k rest] eqn:Hk.
  - destruct Hcase as [_ ->]. by rewrite dict_get_set_eq.
  - destruct Hcase as [-> ->].
    by rewrite (keys_of_font_first font fd k rest Hnd Hk).
Qed.

(** X7. A registration touches one entry at most: the fonts stored under
    other names stay where they are and none is removed, and every entry
    of the page other than [Resources], and of the resources other than
    [Font], reads as before. *)
Theorem get_font_resource_name_frame (font : Font) (page page' : Obj)
  (fd : list (pystr * Obj)) (name : pystr) :
  registered_fonts page = Some fd ->
  _get_font_resource_name font page = (Ok name, page') ->
  exists fd',
    registered_fonts page' = Some fd'
    /\ (forall k, k <> name -> dict_get k fd' = dict_get k fd)
    /\ (length fd <= length fd')%nat
    /\ (forall k, k <> str "Resources" -> getitem page' k = getitem page k)
    /\ (forall k, k <> str "Font" -> resource page' k = resource page k).
Proof.
  intros Hreg Hrun.
  rewrite (get_font_resource_name_run font page fd Hreg) in Hrun.
  pose proof (with_resources_has_fonts page fd Hreg) as Hhas.
  destruct (keys_of_font font fd) as [|k rest].
  - injection Hrun as <- <-.
    destruct (store_font_frame (new_name fd) font _ fd Hhas)
      as (Hhas' & Hpage & Hres).
    exists (dict_set (new_name fd) (OFont font) fd).
    split; [by apply has_fonts_registered|].
    split; [intros k Hk; by apply dict_get_set_ne|].
    split; [apply dict_set_length|]. split.
    + intros k Hk. rewrite Hpage by exact Hk.
      by apply (with_resources_getitem page fd).
    + intros k Hk. rewrite Hres by exact Hk.
      by apply (with_resources_resource page fd).
  - injection Hrun as <- <-. exists fd.
    split; [by apply has_fonts_registered|].
    split; [reflexivity|]. split; [lia|]. split.
    + intros k' Hk'. by apply (with_resources_getitem page fd).
    + intros k' Hk'. by apply (with_resources_resource page fd).
Qed.

(** ** Further properties of the layout *)

Lemma write_text_bytes_assertion (font : Font) (text : pystr) (c : N) :
  c ∈ text ->
  unicode_to_character_identifier font c = None ->
  _write_text_bytes font text = Raise AssertionError.
Proof.
  intros Hin Hc. rewrite write_text_bytes_cases. case_decide as Hn.
  - unfold all_native in Hn. rewrite Forall_forall in Hn.
    specialize (Hn c Hin). congruence.
  - unfold _write_text_bytes_in_hex.
    by rewrite (hex_loop_unrepresentable font text [] c).
Qed.

(** X8. Whatever the outcome, a layout call changes nothing of the chunk
    but its bounding box, and that only when it returns: after an
    exception the chunk is as it was. *)
Theorem do_layout_without_padding_chunk (self self' : ChunkOfText)
  (page page' : Obj) (bb : Rectangle D) (r : Result (Rectangle D)) :
  _do_layout_without_padding self page bb = (r, (self', page')) ->
  self' = match r with
          | Ok layout_rect => set_bounding_box layout_rect self
          | Raise _ => self
          end.
Proof.
  unfold _do_layout_without_padding, assert.
  destruct (to_rgb (_font_color self)) as [[red green] blue].
  destruct (font_bool (_font self));
    [|unfold bind, raise; intros [= <- <- <-]; reflexivity].
  destruct (_font_size self) as [font_size|];
    [|unfold bind, ret, raise; intros [= <- <- <-]; reflexivity].
  unfold bind at 1. unfold ret at 1.
  unfold bind at 1. unfold ret at 1.
  unfold bind at 1. unfold on_page at 1. cbn [fst snd].
  destruct (_get_font_resource_name (_font self) page) as [[name|e] page1];
    [|intros [= <- <- <-]; reflexivity].
  unfold bind at 1. unfold lift at 1.
  destruct (_write_text_bytes (_font self) (_text self)) as [tj|e];
    [|intros [= <- <- <-]; reflexivity].
  unfold bind at 1. unfold on_page at 1. cbn [fst snd].
  destruct (_append_to_content_stream _ page1) as [[[]|e] page2];
    [|intros [= <- <- <-]; reflexivity].
  unfold bind, modify, ret. cbn [fst snd].
  intros [= <- <- <-]. reflexivity.
Qed.

(** X9. When the text has a character without identifier, the layout fails
    with [AssertionError] after the font was registered: the page is left
    as the registration made it, nothing is appended to its content, and
    the chunk gets no bounding box. *)
Theorem do_layout_without_padding_unrepresentable (self : ChunkOfText)
  (page : Obj) (bb : Rectangle D) (font_size : D)
  (fd : list (pystr * Obj)) (c : N) :
  font_bool (_font self) = true ->
  _font_size self = Some font_size ->
  registered_fonts page = Some fd ->
  c ∈ _text self ->
  unicode_to_character_identifier (_font self) c = None ->
  exists name page1,
    _get_font_resource_name (_font self) page = (Ok name, page1)
    /\ _do_layout_without_padding self page bb
       = (Raise AssertionError, (self, page1)).
Proof.
  intros Hfont Hsize Hreg Hin Hc.
  destruct (get_font_resource_name_step (_font self) page fd Hreg)
    as (name & page1 & fd1 & Hrun & _ & _).
  exists name, page1. split; [exact Hrun|].
  unfold _do_layout_without_padding, assert. rewrite Hfont, Hsize.
  destruct (to_rgb (_font_color self)) as [[red green] blue].
  unfold bind at 1. unfold ret at 1.
  unfold bind at 1. unfold ret at 1.
  unfold bind at 1. unfold on_page at 1. cbn [fst snd]. rewrite Hrun.
  unfold bind at 1. unfold lift at 1.
  rewrite (write_text_bytes_assertion _ _ c Hin Hc). reflexivity.
Qed.

(** X10. A chunk whose font is false or whose font size is [None] fails
    the assertions at the start of the layout: [AssertionError], with the
    chunk and the page as they were. *)
Theorem do_layout_without_padding_assertions (self : ChunkOfText)
  (page : Obj) (bb : Rectangle D) :
  font_bool (_font self) = false \/ _font_size self = None ->
  _do_layout_without_padding self page bb
  = (Raise AssertionError, (self, page)).
Proof.
  intros Hcase. unfold _do_layout_without_padding, assert.
  destruct (to_rgb (_font_color self)) as [[red green] blue].
  destruct (font_bool (_font self)) eqn:Hfont.
  - destruct Hcase as [?|Hsize]; [discriminate|]. rewrite Hsize.
    reflexivity.
  - reflexivity.
Qed.

End Model.

(** *** Concrete runs *)

(** A font given by its character table. *)
Definition TableFont : Type := list (N * Z).

#[export] Instance TableFont_ops : FontOps TableFont := {|
  unicode_to_character_identifier font c :=
    snd <$> List.find (fun e => (fst e =? c)%N) font;
  get_font_name _ := str "Table";
  font_bool font := negb (bool_decide (font = []));
|}.

(** [A] and [B] at their code points. *)
Definition latin : TableFont := [(65%N, 65%Z); (66%N, 66%Z)].
(** [A] and [B] at the identifiers 1 and 2. *)
Definition subset : TableFont := [(65%N, 1%Z); (66%N, 2%Z)].

Definition blank_page : Obj (Font := TableFont) := ODict [].

(** A fixed-pitch metrics provider, a bare number format and a content
    stream that accepts every fragment. *)
Definition fixed_pitch (ids : list Z) (font : TableFont) (size : Q) : Q :=
  (inject_Z (Z.of_nat (length ids)) * size)%Q.
Definition fmt_floor (q : Q) : pystr :=
  py_fmt_d (Z.to_N (Qnum q / Z.pos (Qden q))).
Definition accept (content : pystr) : M (Obj (Font := TableFont)) unit :=
  ret tt.

Definition hello : ChunkOfText (Font := TableFont) (D := Q) (Color := Q * Q * Q) :=
  {| _text := str "AB";
     _font := subset;
     _font_size := Some (12 # 1);
     _font_color := (0 # 1, 0 # 1, 0 # 1);
     bounding_box := None |}.

Lemma write_text_bytes_unrepresentable_witness :
  90%N ∈ str "AZ"
  /\ unicode_to_character_identifier latin 90%N = None
  /\ _write_text_bytes latin (str "AZ") = Raise AssertionError.
Proof.
  assert (Hin : 90%N ∈ str "AZ") by (apply list_elem_of_In; simpl; tauto).
  split; [exact Hin|]. split; [reflexivity|].
  apply (write_text_bytes_unrepresentable latin (str "AZ") 90%N Hin).
  reflexivity.
Defined.

Lemma get_font_resource_name_names_witness :
  registered_fonts blank_page = Some []
  /\ NoDup [latin; subset]
  /\ (exists name page',
        _get_font_resource_name latin blank_page = (Ok name, page')
        /\ _get_font_resource_name latin page' = (Ok name, page')
        /\ (keys_of_font latin [] = [] -> name = str "F1"))
  /\ (exists page',
        register_all [latin; subset] blank_page
        = (Ok [str "F1"; str "F2"], page')
        /\ NoDup [str "F1"; str "F2"]).
Proof.
  assert (Hreg : registered_fonts blank_page = Some []) by reflexivity.
  assert (Hnd : NoDup [latin; subset]).
  { apply NoDup_ListNoDup. repeat constructor; simpl; intuition discriminate. }
  split; [exact Hreg|]. split; [exact Hnd|]. split.
  - exact (proj1 get_font_resource_name_names latin blank_page [] Hreg).
  - exact (proj2 get_font_resource_name_names [] [latin; subset] blank_page
             Hreg Hnd).
Defined.

Lemma do_layout_without_padding_rectangle_witness :
  let bb := mkRectangle (10 # 1) (20 # 1) (100 # 1) (50 # 1) in
  font_bool (_font hello) = true
  /\ _font_size hello = Some (12 # 1)
  /\ registered_fonts blank_page = Some []
  /\ (forall c, c ∈ _text hello ->
                unicode_to_character_identifier (_font hello) c <> None)
  /\ (forall content p, (accept content p).1 = Ok tt)
  /\ exists ids page',
       let layout_rect :=
         mkRectangle (x bb) (dsub (dadd (y bb) (height bb)) (12 # 1))
           (fixed_pitch ids (_font hello) (12 # 1)) (12 # 1) in
       _do_layout_without_padding id fmt_floor fixed_pitch accept
         hello blank_page bb
       = (Ok layout_rect, (set_bounding_box layout_rect hello, page'))
       /\ Forall2
            (fun c cid =>
               unicode_to_character_identifier (_font hello) c = Some cid)
            (_text hello) ids
       /\ _write_text_bytes (_font hello) (_text hello)
          = Ok (if decide (all_native (_font hello) (_text hello))
                then _write_text_bytes_in_ascii (_text hello)
                else hex_array ids)
       /\ (all_native (_font hello) (_text hello) ->
           ids = Z.of_N <$> _text hello).
Proof.
  intros bb.
  assert (Hrep : forall c, c ∈ _text hello ->
                   unicode_to_character_identifier (_font hello) c <> None).
  { intros c Hc. apply list_elem_of_In in Hc. simpl in Hc.
    destruct Hc as [<-|[<-|[]]]; discriminate. }
  assert (Hacc : forall content (p : Obj (Font := TableFont)),
                   (accept content p).1 = Ok tt) by reflexivity.
  split; [reflexivity|]. split; [reflexivity|]. split; [reflexivity|].
  split; [exact Hrep|]. split; [exact Hacc|].
  exact (do_layout_without_padding_rectangle id fmt_floor fixed_pitch accept
           hello blank_page bb (12 # 1) [] eq_refl eq_refl eq_refl Hrep Hacc).
Defined.

(** The layout above, run: the chunk is shown in hex mode under the name
    F1 and occupies two glyphs of width 12. *)
Example hello_layout :
  (_do_layout_without_padding id fmt_floor fixed_pitch accept hello blank_page
     (mkRectangle (10 # 1) (20 # 1) (100 # 1) (50 # 1))).1
  = Ok (mkRectangle (10 # 1) ((20 # 1) + (50 # 1) - (12 # 1))%Q
          (inject_Z 2 * (12 # 1))%Q (12 # 1))
  /\ _write_text_bytes subset (str "AB") = Ok (str "[<01><02>] TJ")
  /\ _write_text_bytes latin (str "AB") = Ok (str "(AB) Tj")
  /\ _write_text_bytes_in_ascii [13; 10; 9; 8; 12; 40; 41; 92; 7; 31; 65]%N
     = str "(\r\n\t\b\f\(\)\\\007\037A) Tj".
Proof. repeat split; reflexivity. Qed.

(** The claim C7 in the words of the specification, for the fonts of a
    list registered one after the other on a page: distinct fonts are
    given distinct names. *)
Definition distinct_names (fonts : list TableFont)
  (page : Obj (Font := TableFont)) : Prop :=
  NoDup fonts ->
  forall names page',
    register_all fonts page = (Ok names, page') -> NoDup names.

(** A page read from a document may name its only font F2. The count
    then gives a name that is taken: two new fonts are both registered as
    F2, each in place of the entry before it. *)
Definition greek : TableFont := [(945%N, 1%Z)].

Definition foreign_page : Obj (Font := TableFont) :=
  ODict [(str "Resources",
           ODict [(str "Font", ODict [(str "F2", OFont latin)])])].

Lemma distinct_names_counterexample :
  register_all [subset; greek] foreign_page
  = (Ok [str "F2"; str "F2"],
     ODict [(str "Resources",
              ODict [(str "Font", ODict [(str "F2", OFont greek)])])])
  /\ ~ distinct_names [subset; greek] foreign_page.
Proof.
  split; [reflexivity|].
  intros Hclaim.
  assert (Hnd : NoDup [subset; greek]).
  { apply NoDup_ListNoDup. repeat constructor; simpl; intuition discriminate. }
  specialize (Hclaim Hnd _ _ eq_refl).
  apply NoDup_cons in Hclaim. destruct Hclaim as [Hnotin _].
  apply Hnotin. constructor.
Qed.

(** *** Further concrete runs *)

(** A page with a content entry and with resources that hold no font
    dictionary yet. *)
Definition stocked_page : Obj (Font := TableFont) :=
  ODict [(str "Contents", ONumber 7);
         (str "Resources", ODict [(str "XObject", ODict [])])].

(** A chunk with a character the font does not have, and one without a
    font size. *)
Definition unprintable
  : ChunkOfText (Font := TableFont) (D := Q) (Color := Q * Q * Q) :=
  {| _text := str "AZ";
     _font := latin;
     _font_size := Some (12 # 1);
     _font_color := (0 # 1, 0 # 1, 0 # 1);
     bounding_box := None |}.

Definition unsized
  : ChunkOfText (Font := TableFont) (D := Q) (Color := Q * Q * Q) :=
  {| _text := str "AB";
     _font := latin;
     _font_size := None;
     _font_color := (0 # 1, 0 # 1, 0 # 1);
     bounding_box := None |}.

Definition box : Rectangle Q :=
  mkRectangle (10 # 1) (20 # 1) (100 # 1) (50 # 1).

Lemma hex_rep_value_witness :
  (0 <= 10)%Z
  /\ Forall hex_digit (hex_rep 10)
  /\ of_digits 16 (char_digit <$> hex_rep 10) = 10%N.
Proof.
  assert (Hcid : (0 <= 10)%Z) by lia.
  split; [exact Hcid|]. exact (hex_rep_value 10 Hcid).
Defined.

Lemma get_font_resource_name_lookup_witness :
  registered_fonts stocked_page = Some []
  /\ NoDup ([] : list (pystr * Obj (Font := TableFont))).*1
  /\ exists name page',
       _get_font_resource_name latin stocked_page = (Ok name, page')
       /\ rbind (resource page' (str "Font"))
            (fun fonts => getitem fonts name)
          = Ok (OFont latin).
Proof.
  assert (Hreg : registered_fonts stocked_page = Some []) by reflexivity.
  assert (Hnd : NoDup ([] : list (pystr * Obj (Font := TableFont))).*1)
    by constructor.
  split; [exact Hreg|]. split; [exact Hnd|].
  exact (get_font_resource_name_lookup latin stocked_page [] Hreg Hnd).
Defined.

Lemma stocked_page_run :
  _get_font_resource_name latin stocked_page
  = (Ok (str "F1"),
     ODict [(str "Contents", ONumber 7);
            (str "Resources",
              ODict [(str "XObject", ODict []);
                     (str "Font", ODict [(str "F1", OFont latin)])])]).
Proof. reflexivity. Qed.

Lemma get_font_resource_name_frame_witness :
  let page' :=
    ODict [(str "Contents", ONumber 7);
           (str "Resources",
             ODict [(str "XObject", ODict []);
                    (str "Font", ODict [(str "F1", OFont latin)])])] in
  registered_fonts stocked_page = Some []
  /\ _get_font_resource_name latin stocked_page = (Ok (str "F1"), page')
  /\ exists fd',
       registered_fonts page' = Some fd'
       /\ (forall k, k <> str "F1" -> dict_get k fd' = dict_get k [])
       /\ (length ([] : list (pystr * Obj (Font := TableFont)))
           <= length fd')%nat
       /\ (forall k, k <> str "Resources" ->
                     getitem page' k = getitem stocked_page k)
       /\ (forall k, k <> str "Font" ->
                     resource page' k = resource stocked_page k).
Proof.
  intros page'.
  assert (Hreg : registered_fonts stocked_page = Some []) by reflexivity.
  split; [exact Hreg|]. split; [exact stocked_page_run|].
  exact (get_font_resource_name_frame latin stocked_page page' []
           (str "F1") Hreg stocked_page_run).
Defined.

Lemma do_layout_without_padding_chunk_witness :
  let out := _do_layout_without_padding id fmt_floor fixed_pitch accept
               hello blank_page box in
  out = (out.1, (out.2.1, out.2.2))
  /\ out.2.1 = match out.1 with
               | Ok layout_rect => set_bounding_box layout_rect hello
               | Raise _ => hello
               end.
Proof.
  intros out.
  assert (Heq : out = (out.1, (out.2.1, out.2.2)))
    by (destruct out as [r [s p]]; reflexivity).
  split; [exact Heq|].
  exact (do_layout_without_padding_chunk id fmt_floor fixed_pitch accept
           hello _ blank_page _ box _ Heq).
Defined.

Lemma do_layout_without_padding_unrepresentable_witness :
  font_bool (_font unprintable) = true
  /\ _font_size unprintable = Some (12 # 1)
  /\ registered_fonts blank_page = Some []
  /\ 90%N ∈ _text unprintable
  /\ unicode_to_character_identifier (_font unprintable) 90%N = None
  /\ exists name page1,
       _get_font_resource_name (_font unprintable) blank_page
       = (Ok name, page1)
       /\ _do_layout_without_padding id fmt_floor fixed_pitch accept
            unprintable blank_page box
          = (Raise AssertionError, (unprintable, page1)).
Proof.
  assert (Hin : 90%N ∈ _text unprintable)
    by (apply list_elem_of_In; simpl; tauto).
  split; [reflexivity|]. split; [reflexivity|]. split; [reflexivity|].
  split; [exact Hin|]. split; [reflexivity|].
  exact (do_layout_without_padding_unrepresentable id fmt_floor fixed_pitch
           accept unprintable blank_page box (12 # 1) [] 90%N
           eq_refl eq_refl eq_refl Hin eq_refl).
Defined.

Lemma do_layout_without_padding_assertions_witness :
  (font_bool (_font unsized) = false \/ _font_size unsized = None)
  /\ _do_layout_without_padding id fmt_floor fixed_pitch accept
       unsized blank_page box
     = (Raise AssertionError, (unsized, blank_page)).
Proof.
  assert (Hcase : font_bool (_font unsized) = false
                  \/ _font_size unsized = None) by (right; reflexivity).
  split; [exact Hcase|].
  exact (do_layout_without_padding_assertions id fmt_floor fixed_pitch accept
           unsized blank_page box Hcase).
Defined.

End ChunkOfText.

(** ** [location_filter.py] *)
Module LocationFilter.

Section Model.
Context {D : Type} `{DecimalOps D}.

(** The events the filter tells apart: a text event with its bounding box
    (which may be missing), an image event with its position, and every
    other kind of event. *)
Inductive Event : Type :=
| ChunkOfTextRenderEvent (bounding_box : option (Rectangle D)) (text : pystr)
| ImageRenderEvent (image_x image_y : D)
| OtherEvent (kind : pystr).

(** A downstream listener acts on the world [W] when it is told of an
    event, and may raise. *)
Context {W : Type}.
Definition EventListener : Type := Event -> M W unit.

Record LocationFilter : Type := mkLocationFilter {
  _rectangle : Rectangle D;
  _listeners : list EventListener;
}.

Definition __init__ (rectangle : Rectangle D) : LocationFilter :=
  {| _rectangle := rectangle; _listeners := [] |}.

Definition add_listener (listener : EventListener) (self : LocationFilter)
  : LocationFilter :=
  {| _rectangle := _rectangle self;
     _listeners := _listeners self ++ [listener] |}.

(** [r.x < px < r.x + r.width and r.y < py < r.y + r.height] *)
Definition in_rectangle (r : Rectangle D) (px py : D) : bool :=
  dltb (x r) px && dltb px (dadd (x r) (width r))
  && dltb (y r) py && dltb py (dadd (y r) (height r)).

Definition _event_occurred (self : LocationFilter) (event : Event)
  : M W unit :=
  match event with
  | ChunkOfTextRenderEvent bb _ =>
      match bb with
      | None => raise AssertionError
      | Some bb =>
          if in_rectangle (_rectangle self) (x bb) (y bb)
          then for_each (_listeners self) (fun l => l event)
          else ret tt
      end
  | ImageRenderEvent ex ey =>
      if in_rectangle (_rectangle self) ex ey
      then for_each (_listeners self) (fun l => l event)
      else ret tt
  | OtherEvent _ => for_each (_listeners self) (fun l => l event)
  end.

(** *** The forwarding rule, as the specification gives it *)

Definition dlt (a b : D) : Prop := dltb a b = true.

(** The point lies in the open rectangle. *)
Definition strictly_inside (r : Rectangle D) (px py : D) : Prop :=
  (dlt (x r) px /\ dlt px (dadd (x r) (width r)))
  /\ (dlt (y r) py /\ dlt py (dadd (y r) (height r))).

#[local] Instance strictly_inside_dec r px py : Decision (strictly_inside r px py).
Proof. unfold strictly_inside, dlt. apply _. Defined.

(** The origin the rule looks at, for the events that have one. *)
Definition origin (event : Event) : option (D * D) :=
  match event with
  | ChunkOfTextRenderEvent (Some bb) _ => Some (x bb, y bb)
  | ChunkOfTextRenderEvent None _ => None
  | ImageRenderEvent ex ey => Some (ex, ey)
  | OtherEvent _ => None
  end.

Definition is_other (event : Event) : bool :=
  match event with
  | OtherEvent _ => true
  | _ => false
  end.

(** Each listener is told of the event, in the order of the list. *)
Definition forward (listeners : list EventListener) (event : Event)
  : M W unit :=
  for_each listeners (fun l => l event).

(** ** Properties of the filter *)

Lemma in_rectangle_spec (r : Rectangle D) (px py : D) :
  in_rectangle r px py = true <-> strictly_inside r px py.
Proof.
  unfold in_rectangle, strictly_inside, dlt.
  rewrite !andb_true_iff. tauto.
Qed.

Lemma listeners_in_registration_order (rectangle : Rectangle D)
  (ls : list EventListener) :
  _listeners (fold_left (fun self l => add_listener l self) ls
                (__init__ rectangle)) = ls.
Proof.
  change ls with (_listeners (__init__ rectangle) ++ ls) at 2.
  generalize (__init__ rectangle) as self.
  induction ls as [|l rest IH]; intros self; cbn [fold_left].
  - by rewrite app_nil_r.
  - rewrite IH. cbn. by rewrite <- app_assoc.
Qed.

(** C8. An event with an origin (a text event with a bounding box, an
    image event) is forwarded to the listeners, in the order of the list,
    when the origin is strictly inside the rectangle, and to none of them
    otherwise; an origin on the left edge is never strictly inside; an
    event of another kind is forwarded whatever the rectangle. *)
Theorem event_occurred_forwarding (self : LocationFilter) (event : Event)
  (w : W) :
  _event_occurred self event w
  = match origin event with
    | Some (px, py) =>
        if decide (strictly_inside (_rectangle self) px py)
        then forward (_listeners self) event w
        else (Ok tt, w)
    | None =>
        if is_other event then forward (_listeners self) event w
        else (Raise AssertionError, w)
    end
  /\ forall py, ~ strictly_inside (_rectangle self) (x (_rectangle self)) py.
Proof.
  split.
  - destruct event as [[bb|] text|ex ey|kind]; cbn; try reflexivity.
    + destruct (in_rectangle (_rectangle self) (x bb) (y bb)) eqn:E;
        case_decide as Hin; try reflexivity.
      * apply in_rectangle_spec in E. contradiction.
      * apply in_rectangle_spec in Hin. congruence.
    + destruct (in_rectangle (_rectangle self) ex ey) eqn:E;
        case_decide as Hin; try reflexivity.
      * apply in_rectangle_spec in E. contradiction.
      * apply in_rectangle_spec in Hin. congruence.
  - intros py [[Hx _] _]. unfold dlt in Hx. by rewrite dltb_irrefl in Hx.
Qed.

(** ** Further properties of the filter *)

Lemma for_each_app {S A} (xs ys : list A) (body : A -> M S unit) (s : S) :
  for_each (xs ++ ys) body s
  = bind (for_each xs body) (fun _ => for_each ys body) s.
Proof.
  revert s. induction xs as [|a xs IH]; intros s; [reflexivity|].
  cbn [app for_each]. unfold bind.
  destruct (body a s) as [[[]|e] s1]; [|reflexivity].
  rewrite IH. reflexivity.
Qed.

Lemma for_each_one {S A} (a : A) (body : A -> M S unit) (s : S) :
  for_each [a] body s = body a s.
Proof.
  cbn [for_each]. unfold bind, ret.
  destruct (body a s) as [[[]|e] s1]; reflexivity.
Qed.

(** The event passes the test of the filter. *)
Definition passes (self : LocationFilter) (event : Event) : Prop :=
  match origin event with
  | Some (px, py) => strictly_inside (_rectangle self) px py
  | None => is_other event = true
  end.

Lemma event_occurred_passes (self : LocationFilter) (event : Event) (w : W) :
  passes self event ->
  _event_occurred self event w = forward (_listeners self) event w.
Proof.
  unfold passes, forward.
  destruct event as [[bb|] text|ex ey|kind]; cbn; intros Hpass.
  - apply in_rectangle_spec in Hpass. by rewrite Hpass.
  - discriminate.
  - apply in_rectangle_spec in Hpass. by rewrite Hpass.
  - reflexivity.
Qed.

(** X11. A filter built by adding listeners one by one holds them in the
    order they were added, and keeps the rectangle it was created with. *)
Theorem add_listener_chain (rectangle : Rectangle D)
  (ls : list EventListener) :
  _rectangle (fold_left (fun self l => add_listener l self) ls
                (__init__ rectangle)) = rectangle
  /\ _listeners (fold_left (fun self l => add_listener l self) ls
                   (__init__ rectangle)) = ls.
Proof.
  split; [|apply listeners_in_registration_order].
  change rectangle with (_rectangle (__init__ rectangle)) at 2.
  generalize (__init__ rectangle) as self.
  induction ls as [|l rest IH]; intros self; [reflexivity|].
  cbn [fold_left]. by rewrite IH.
Qed.

(** X12. A filter whose only listener is another filter lets an event
    with an origin through to the listeners of the inner filter exactly
    when the origin is strictly inside both rectangles; an event without
    origin is treated as the inner filter treats it. *)
Theorem nested_filters (rectangle : Rectangle D) (inner : LocationFilter)
  (event : Event) (w : W) :
  _event_occurred
    {| _rectangle := rectangle; _listeners := [_event_occurred inner] |}
    event w
  = match origin event with
    | Some (px, py) =>
        if decide (strictly_inside rectangle px py
                   /\ strictly_inside (_rectangle inner) px py)
        then forward (_listeners inner) event w
        else (Ok tt, w)
    | None => _event_occurred inner event w
    end.
Proof.
  unfold forward.
  destruct event as [[bb|] text|ex ey|kind]; cbn [_event_occurred origin
    _rectangle _listeners]; try rewrite for_each_one; try reflexivity.
  - destruct (in_rectangle rectangle (x bb) (y bb)) eqn:Eo.
    + rewrite for_each_one. cbn [_event_occurred].
      destruct (in_rectangle (_rectangle inner) (x bb) (y bb)) eqn:Ei;
        case_decide as Hin; try reflexivity.
      * exfalso. apply Hin. split; by apply in_rectangle_spec.
      * destruct Hin as [_ Hi]. apply in_rectangle_spec in Hi. congruence.
    + case_decide as Hin; [|reflexivity].
      destruct Hin as [Ho _]. apply in_rectangle_spec in Ho. congruence.
  - destruct (in_rectangle rectangle ex ey) eqn:Eo.
    + rewrite for_each_one. cbn [_event_occurred].
      destruct (in_rectangle (_rectangle inner) ex ey) eqn:Ei;
        case_decide as Hin; try reflexivity.
      * exfalso. apply Hin. split; by apply in_rectangle_spec.
      * destruct Hin as [_ Hi]. apply in_rectangle_spec in Hi. congruence.
    + case_decide as Hin; [|reflexivity].
      destruct Hin as [Ho _]. apply in_rectangle_spec in Ho. congruence.
Qed.

(** X13. When a listener raises on an event that passes the filter, the
    filter raises the same exception and the listeners after it are not
    told of the event: the world is left as that listener left it. *)
Theorem listener_exception (self : LocationFilter) (event : Event)
  (before after : list EventListener) (l : EventListener) (w w1 w2 : W)
  (e : exn) :
  _listeners self = before ++ l :: after ->
  passes self event ->
  forward before event w = (Ok tt, w1) ->
  l event w1 = (Raise e, w2) ->
  _event_occurred self event w = (Raise e, w2).
Proof.
  intros Hls Hpass Hbefore Hl.
  rewrite (event_occurred_passes self event w Hpass). unfold forward in *.
  rewrite Hls, for_each_app. unfold bind at 1. rewrite Hbefore.
  cbn [for_each]. unfold bind. by rewrite Hl.
Qed.

End Model.

(** *** Concrete runs *)

(** A listener that writes its number and the event to a log. *)
Definition recorder (i : nat)
  : EventListener (D := Q) (W := list (nat * Event (D := Q))) :=
  fun event log => (Ok tt, log ++ [(i, event)]).

Definition unit_square_filter : LocationFilter :=
  add_listener (recorder 1)
    (add_listener (recorder 0)
       (__init__ (mkRectangle (0 # 1) (0 # 1) (10 # 1) (10 # 1)))).

Definition text_at (px py : Q) : Event :=
  ChunkOfTextRenderEvent (Some (mkRectangle px py (3 # 1) (1 # 1))) (str "A").

(** Inside: both listeners, first registered first. On the left edge, on
    the right edge: none. Another kind of event: both. No bounding box:
    the assertion fails. *)
Example unit_square_runs :
  _event_occurred unit_square_filter (text_at (5 # 1) (5 # 1)) []
  = (Ok tt, [(0%nat, text_at (5 # 1) (5 # 1)); (1%nat, text_at (5 # 1) (5 # 1))])
  /\ _event_occurred unit_square_filter (text_at (0 # 1) (5 # 1)) [] = (Ok tt, [])
  /\ _event_occurred unit_square_filter (ImageRenderEvent (10 # 1) (5 # 1)) []
     = (Ok tt, [])
  /\ _event_occurred unit_square_filter (ImageRenderEvent (9 # 1) (1 # 1)) []
     = (Ok tt, [(0%nat, ImageRenderEvent (9 # 1) (1 # 1));
                (1%nat, ImageRenderEvent (9 # 1) (1 # 1))])
  /\ _event_occurred unit_square_filter (OtherEvent (str "BeginPage")) []
     = (Ok tt, [(0%nat, OtherEvent (str "BeginPage"));
                (1%nat, OtherEvent (str "BeginPage"))])
  /\ _event_occurred unit_square_filter (ChunkOfTextRenderEvent None (str "A")) []
     = (Raise AssertionError, []).
Proof. repeat split; reflexivity. Qed.

(** *** Rectangles of rational numbers *)

Section Rational.
Context {W : Type}.




End Rational.

(** *** Further concrete runs *)

(** A listener that raises, between two recorders. *)
Definition failing
  : EventListener (D := Q) (W := list (nat * Event (D := Q))) :=
  fun event log => (Raise KeyError, log).

Definition interrupted_filter : LocationFilter :=
  add_listener (recorder 1)
    (add_listener failing
       (add_listener (recorder 0)
          (__init__ (mkRectangle (0 # 1) (0 # 1) (10 # 1) (10 # 1))))).


Lemma listener_exception_witness :
  let event := OtherEvent (str "BeginPage") in
  _listeners interrupted_filter = [recorder 0] ++ failing :: [recorder 1]
  /\ passes interrupted_filter event
  /\ forward [recorder 0] event [] = (Ok tt, [(0%nat, event)])
  /\ failing event [(0%nat, event)] = (Raise KeyError, [(0%nat, event)])
  /\ _event_occurred interrupted_filter event []
     = (Raise KeyError, [(0%nat, event)]).
Proof.
  intros event.
  split; [reflexivity|]. split; [reflexivity|]. split; [reflexivity|].
  split; [reflexivity|].
  exact (listener_exception interrupted_filter event [recorder 0]
           [recorder 1] failing [] [(0%nat, event)] [(0%nat, event)] KeyError
           eq_refl eq_refl eq_refl eq_refl).
Defined.


End LocationFilter.

(** ** [default_font_dictionary_transformer.py] *)
Module FontDictionaryTransformer.

(** Untyped nodes. The keys of a dictionary are [PDFName]s, kept by their
    [name]; a dictionary iterates in insertion order. *)
Inductive PDFObject : Type :=
| PDFNull
| PDFName (name : pystr)
| PDFNumber (q : Q)
| PDFString (s : pystr)
| PDFArray (l : list PDFObject)
| PDFDictionary (items : list (pystr * PDFObject)).

(** What a variable of the transformer may hold: [None], an untyped node,
    or a reference to a typed object. *)
Abbreviation loc := nat.

Inductive Value : Type :=
| PyNone
| Prim (o : PDFObject)
| Ref (l : loc).

Inductive Class : Type :=
| TrueTypeFont
| FontType0
| FontType1
| FontType3
| CIDFontType0
| CIDFontType2
| OtherClass (name : pystr).

Section Model.
Context {EventListener TransformerContext : Type}.

(** Modelled from the spec: the typed objects ([TrueTypeFont] and the other
    font classes are not among the sources). A typed object carries a
    reference to its parent, a bag of listeners and its attributes, and is
    created with no parent, no listener and no attribute. *)
Record TypedObject : Type := mkTypedObject {
  class : Class;
  parent : Value;
  listeners : list EventListener;
  attrs : gmap pystr Value;
}.

(** Typed objects live in a heap, addressed by their position; [print]
    writes lines to the standard output. *)
Record World : Type := mkWorld {
  heap : list TypedObject;
  stdout : list pystr;
}.

(** A call of the root transformer, with what it returned. *)
Record Call : Type := mkCall {
  call_object : PDFObject;
  call_parent : Value;
  call_context : option TransformerContext;
  call_listeners : list EventListener;
  call_result : Result Value;
}.

(** The calls made to the root transformer are kept in a log, oldest
    first, which the root transformer itself does not see. *)
Record State : Type := mkState {
  world : World;
  calls : list Call;
}.

(** [self.get_root_transformer().transform]: not among the sources, and
    free to act on the world. *)
Variable root_transform :
  PDFObject -> Value -> option TransformerContext -> list EventListener ->
  M World Value.

Definition call_root (v : PDFObject) (p : Value)
  (c : option TransformerContext) (ls : list EventListener) : M State Value :=
  fun s =>
    let '(r, w') := root_transform v p c ls (world s) in
    (r, {| world := w'; calls := calls s ++ [mkCall v p c ls r] |}).

Definition with_heap (f : list TypedObject -> list TypedObject) (s : State)
  : State :=
  {| world := {| heap := f (heap (world s)); stdout := stdout (world s) |};
     calls := calls s |}.

(** [print(line)] *)
Definition print (line : pystr) : M State unit :=
  modify (fun s =>
            {| world := {| heap := heap (world s);
                           stdout := stdout (world s) ++ [line] |};
               calls := calls s |}).

(** [cls()] *)
Definition new (cls : Class) : M State Value :=
  fun s =>
    (Ok (Ref (length (heap (world s)))),
     with_heap (fun h => h ++ [mkTypedObject cls PyNone [] ∅]) s).

(** [obj.set_parent(p)] *)
Definition set_parent (obj : Value) (p : Value) : M State unit :=
  match obj with
  | Ref l =>
      modify (with_heap
                (alter (fun o => mkTypedObject (class o) p (listeners o)
                                   (attrs o)) l))
  | _ => raise AttributeError
  end.

(** [obj.add_event_listener(l)] *)
Definition add_event_listener (obj : Value) (listener : EventListener)
  : M State unit :=
  match obj with
  | Ref l =>
      modify (with_heap
                (alter (fun o => mkTypedObject (class o) (parent o)
                                   (listeners o ++ [listener]) (attrs o)) l))
  | _ => raise AttributeError
  end.

(** [obj[k] = v] *)
Definition setitem (obj : Value) (k : pystr) (v : Value) : M State unit :=
  match obj with
  | Ref l =>
      modify (with_heap
                (alter (fun o => mkTypedObject (class o) (parent o)
                                   (listeners o) (<[k := v]> (attrs o))) l))
  | _ => raise TypeError
  end.

Fixpoint dict_get (k : pystr) (d : list (pystr * PDFObject))
  : option PDFObject :=
  match d with
  | [] => None
  | (k', v) :: rest => if decide (k = k') then Some v else dict_get k rest
  end.

(** [o[PDFName(k)]] *)
Definition getitem (o : PDFObject) (k : pystr) : Result PDFObject :=
  match o with
  | PDFDictionary d =>
      match dict_get k d with
      | Some v => Ok v
      | None => Raise KeyError
      end
  | _ => Raise TypeError
  end.

(** [o.name] *)
Definition name_of (o : PDFObject) : Result pystr :=
  match o with
  | PDFName n => Ok n
  | _ => Raise AttributeError
  end.

(** [o.items()] *)
Definition items_of (o : PDFObject) : Result (list (pystr * PDFObject)) :=
  match o with
  | PDFDictionary d => Ok d
  | _ => Raise AttributeError
  end.

(** [v == PDFName(n)] *)
Definition eq_name (v : PDFObject) (n : pystr) : bool :=
  match v with
  | PDFName m => bool_decide (m = n)
  | _ => false
  end.

(** Modelled from the spec: [v != PDFNull()], the comparison of [PDFNull],
    which is not among the sources; only a Null is equal to it. *)
Definition ne_null (v : Value) : bool :=
  match v with
  | Prim PDFNull => false
  | _ => true
  end.

Definition can_be_transformed (object : PDFObject) : bool :=
  match object with
  | PDFDictionary d =>
      match dict_get (str "Type") d with
      | Some v => eq_name v (str "Font")
      | None => false
      end
  | _ => false
  end.

(** The body of the loop over the key/value pairs. *)
Definition convert_pair (font_obj : Value) (context : option TransformerContext)
  (kv : pystr * PDFObject) : M State unit :=
  let '(k, v) := kv in
  if bool_decide (k = str "Parent") then ret tt
  else
    (v <- call_root v font_obj context [];;
     if ne_null v then setitem font_obj k v else ret tt)%py.

Definition transform (object_to_transform : PDFObject) (parent_object : Value)
  (context : option TransformerContext)
  (event_listeners : list EventListener) : M State Value :=
  (subtype <- lift (getitem object_to_transform (str "Subtype"));;
   subtype_name <- lift (name_of subtype);;
   font_obj <-
     (if bool_decide (subtype_name = str "TrueType") then new TrueTypeFont
      else if bool_decide (subtype_name = str "Type0") then new FontType0
      else if bool_decide (subtype_name = str "Type1") then new FontType1
      else if bool_decide (subtype_name = str "Type3") then new FontType3
      else if bool_decide (subtype_name = str "CIDFontType0")
           then new CIDFontType0
      else if bool_decide (subtype_name = str "CIDFontType2")
           then new CIDFontType2
      else (print (str "Unsupported font type " ++ subtype_name);;
            ret PyNone));;
   (match font_obj with
    | PyNone => ret tt
    | _ => set_parent font_obj parent_object
    end);;
   for_each event_listeners (add_event_listener font_obj);;
   its <- lift (items_of object_to_transform);;
   for_each its (convert_pair font_obj context);;
   ret font_obj)%py.

(** *** The known font variants, as the specification lists them *)

Definition font_class (subtype_name : pystr) : option Class :=
  if decide (subtype_name = str "TrueType") then Some TrueTypeFont
  else if decide (subtype_name = str "Type0") then Some FontType0
  else if decide (subtype_name = str "Type1") then Some FontType1
  else if decide (subtype_name = str "Type3") then Some FontType3
  else if decide (subtype_name = str "CIDFontType0") then Some CIDFontType0
  else if decide (subtype_name = str "CIDFontType2") then Some CIDFontType2
  else None.

(** The pairs the loop transforms: all but the link to the parent. *)
Definition children (its : list (pystr * PDFObject))
  : list (pystr * PDFObject) :=
  filter (fun kv => kv.1 <> str "Parent") its.

(** The object after the transformed children are stored, Null apart. *)
Definition store (o : TypedObject) (k : pystr) (r : Value) : TypedObject :=
  if ne_null r
  then mkTypedObject (class o) (parent o) (listeners o) (<[k := r]> (attrs o))
  else o.

Definition store_all (o : TypedObject) (krs : list (pystr * Value))
  : TypedObject :=
  fold_left (fun o kr => store o kr.1 kr.2) krs o.

(** The root transformer leaves the parent it is given as it is. *)
Definition preserves_parent : Prop :=
  forall v l c ls w o,
    heap w !! l = Some o ->
    heap (root_transform v (Ref l) c ls w).2 !! l = Some o.

(** The root transformer returns. *)
Definition total : Prop :=
  forall v p c ls w, exists r, (root_transform v p c ls w).1 = Ok r.

(** An untyped font dictionary of a subtype that is not among the six. *)
Definition multiple_master : PDFObject :=
  PDFDictionary [(str "Type", PDFName (str "Font"));
                 (str "Subtype", PDFName (str "MMType1"))].

(** ** Properties of the transformer *)

Lemma bind_ok_inv {S A B} (m : M S A) (k : A -> M S B) (s s' : S) (b : B) :
  bind m k s = (Ok b, s') ->
  exists a s1, m s = (Ok a, s1) /\ k a s1 = (Ok b, s').
Proof.
  unfold bind. destruct (m s) as [[a|e] s1]; [eauto | discriminate].
Qed.

Lemma alter_new {A} (f : A -> A) (h : list A) (o : A) :
  alter f (length h) (h ++ [o]) = h ++ [f o].
Proof.
  induction h as [|a h IH]; [reflexivity|]. cbn. f_equal. exact IH.
Qed.

Lemma add_event_listeners (l : loc) (ls : list EventListener) (s : State) :
  for_each ls (add_event_listener (Ref l)) s
  = (Ok tt,
     with_heap
       (alter (fun o => mkTypedObject (class o) (parent o)
                          (listeners o ++ ls) (attrs o)) l) s).
Proof.
  revert s. induction ls as [|a ls IH]; intros [[h out] cs].
  - cbn. unfold ret, with_heap. cbn. do 3 f_equal.
    symmetry. apply list_alter_id. intros [c p ll at']. cbn.
    by rewrite app_nil_r.
  - cbn [for_each]. unfold bind, add_event_listener at 1, modify.
    rewrite IH. unfold with_heap. cbn. do 3 f_equal.
    rewrite list_alter_alter_eq. apply list_alter_ext; [|done].
    intros o _. cbn. by rewrite <- app_assoc.
Qed.

(** What [transform] does on a dictionary with a known subtype: the new
    object is put on the heap with the parent and the listeners of the
    call, and the pairs are converted. *)
Lemma transform_known (d : list (pystr * PDFObject)) (n : pystr) (cls : Class)
  (parent_object : Value) (context : option TransformerContext)
  (event_listeners : list EventListener) (s : State) :
  dict_get (str "Subtype") d = Some (PDFName n) ->
  font_class n = Some cls ->
  transform (PDFDictionary d) parent_object context event_listeners s
  = let l := length (heap (world s)) in
    let s1 :=
      with_heap (fun h => h ++ [mkTypedObject cls parent_object
                                  event_listeners ∅]) s in
    match for_each d (convert_pair (Ref l) context) s1 with
    | (Ok _, s') => (Ok (Ref l), s')
    | (Raise e, s') => (Raise e, s')
    end.
Proof.
  intros Hsub Hcls. unfold transform.
  unfold bind at 1. unfold lift at 1, getitem. rewrite Hsub.
  unfold bind at 1. unfold lift at 1, name_of.
  assert (Hnew : forall (k : Value -> M State Value),
    bind (if bool_decide (n = str "TrueType") then new TrueTypeFont
      else if bool_decide (n = str "Type0") then new FontType0
      else if bool_decide (n = str "Type1") then new FontType1
      else if bool_decide (n = str "Type3") then new FontType3
      else if bool_decide (n = str "CIDFontType0")
           then new CIDFontType0
      else if bool_decide (n = str "CIDFontType2")
           then new CIDFontType2
      else (print (str "Unsupported font type " ++ n);;
            ret PyNone)%py) k s
    = bind (new cls) k s).
  { intros k. unfold font_class in Hcls.
    repeat (case_bool_decide;
            [rewrite decide_True in Hcls by assumption; by inversion Hcls
            |rewrite decide_False in Hcls by assumption]).
    discriminate. }
  rewrite Hnew. clear Hnew.
  destruct s as [[h out] cs]. unfold bind at 1, new at 1. cbn [world heap].
  unfold bind at 1, set_parent at 1, modify at 1.
  unfold bind at 1. rewrite add_event_listeners.
  unfold bind at 1, lift at 1, items_of.
  unfold with_heap. cbn [world heap stdout calls].
  rewrite list_alter_alter_eq, alter_new. cbn.
  unfold bind, ret.
  destruct (for_each d (convert_pair (Ref (length h)) context) _)
    as [[[]|e] s']; reflexivity.
Qed.

(** C10. A dictionary with [Type = Font] and no [Subtype] is accepted by
    [can_be_transformed], and [transform] raises on it at the lookup of
    [Subtype], before anything else is done. *)
Theorem transform_without_subtype (d : list (pystr * PDFObject))
  (parent_object : Value) (context : option TransformerContext)
  (event_listeners : list EventListener) (s : State) :
  dict_get (str "Type") d = Some (PDFName (str "Font")) ->
  dict_get (str "Subtype") d = None ->
  can_be_transformed (PDFDictionary d) = true
  /\ transform (PDFDictionary d) parent_object context event_listeners s
     = (Raise KeyError, s).
Proof.
  intros Htype Hsub. split.
  - unfold can_be_transformed. rewrite Htype. reflexivity.
  - unfold transform, bind, lift, getitem. by rewrite Hsub.
Qed.

Lemma transform_unknown (d : list (pystr * PDFObject)) (n : pystr)
  (parent_object : Value) (context : option TransformerContext)
  (listener : EventListener) (event_listeners : list EventListener)
  (s : State) :
  dict_get (str "Subtype") d = Some (PDFName n) ->
  font_class n = None ->
  transform (PDFDictionary d) parent_object context
    (listener :: event_listeners) s
  = (Raise AttributeError,
     {| world := {| heap := heap (world s);
                    stdout := stdout (world s)
                              ++ [str "Unsupported font type " ++ n] |};
        calls := calls s |}).
Proof.
  intros Hsub Hcls. unfold transform.
  unfold bind at 1. unfold lift at 1, getitem. rewrite Hsub.
  unfold bind at 1. unfold lift at 1, name_of.
  unfold font_class in Hcls.
  repeat (case_bool_decide;
          [rewrite decide_True in Hcls by assumption; discriminate
          |rewrite decide_False in Hcls by assumption]).
  reflexivity.
Qed.

(** C1, on the code. [transform] accepts the dictionary, prints that the
    subtype is unsupported and, with one listener supplied, raises when it
    attaches the listener to the object it did not create. *)
Theorem transform_unknown_subtype_raises (parent_object : Value)
  (context : option TransformerContext) (listener : EventListener)
  (s : State) :
  can_be_transformed multiple_master = true
  /\ font_class (str "MMType1") = None
  /\ transform multiple_master parent_object context [listener] s
     = (Raise AttributeError,
        {| world := {| heap := heap (world s);
                       stdout := stdout (world s)
                                 ++ [str "Unsupported font type MMType1"] |};
           calls := calls s |}).
Proof.
  split; [reflexivity|]. split; [reflexivity|].
  apply (transform_unknown _ (str "MMType1")); reflexivity.
Qed.

Lemma store_all_cons (o : TypedObject) (k : pystr) (r : Value)
  (krs : list (pystr * Value)) :
  store_all o ((k, r) :: krs) = store_all (store o k r) krs.
Proof. reflexivity. Qed.

Lemma store_all_fields (o : TypedObject) (krs : list (pystr * Value)) :
  class (store_all o krs) = class o
  /\ parent (store_all o krs) = parent o
  /\ listeners (store_all o krs) = listeners o.
Proof.
  revert o. induction krs as [|[k r] krs IH]; intros o; [done|].
  rewrite store_all_cons. destruct (IH (store o k r)) as (-> & -> & ->).
  unfold store. by destruct (ne_null r).
Qed.

Lemma store_all_lookup_other (o : TypedObject) (krs : list (pystr * Value))
  (k : pystr) :
  k ∉ krs.*1 -> attrs (store_all o krs) !! k = attrs o !! k.
Proof.
  revert o. induction krs as [|[k' r] krs IH]; intros o Hk; [done|].
  cbn in Hk. rewrite not_elem_of_cons in Hk. destruct Hk as [Hne Hk].
  rewrite store_all_cons, IH by assumption. unfold store.
  destruct (ne_null r); [|reflexivity]. cbn. by rewrite lookup_insert_ne.
Qed.

Lemma store_all_lookup (o : TypedObject) (krs : list (pystr * Value))
  (k : pystr) (r : Value) :
  NoDup krs.*1 -> (k, r) ∈ krs ->
  attrs (store_all o krs) !! k = if ne_null r then Some r else attrs o !! k.
Proof.
  revert o. induction krs as [|[k' r'] krs IH]; intros o Hnd Hin;
    [by inversion Hin|].
  cbn in Hnd. apply NoDup_cons in Hnd. destruct Hnd as [Hk' Hnd].
  apply elem_of_cons in Hin. destruct Hin as [[= <- <-]|Hin].
  - rewrite store_all_cons, store_all_lookup_other by assumption.
    unfold store.
    destruct (ne_null r); [|reflexivity]. cbn. by rewrite lookup_insert_eq.
  - rewrite store_all_cons, IH by assumption.
    destruct (ne_null r); [reflexivity|]. unfold store.
    destruct (ne_null r'); [|reflexivity]. cbn.
    rewrite lookup_insert_ne; [reflexivity|].
    intros ->. apply Hk'. apply list_elem_of_fmap. by exists (k, r).
Qed.

Lemma convert_pairs_inv (l : loc) (context : option TransformerContext)
  (its : list (pystr * PDFObject)) (s s' : State) (o : TypedObject) :
  preserves_parent ->
  for_each its (convert_pair (Ref l) context) s = (Ok tt, s') ->
  heap (world s) !! l = Some o ->
  exists rs : list Value,
    length rs = length (children its)
    /\ calls s'
       = calls s
         ++ zip_with (fun kv r => mkCall kv.2 (Ref l) context [] (Ok r))
              (children its) rs
    /\ heap (world s') !! l
       = Some (store_all o (zip (children its).*1 rs)).
Proof.
  intros Hframe. revert s o.
  induction its as [|[k v] rest IH]; intros s o Hrun Ho.
  - cbn in Hrun. injection Hrun as <-. exists []. cbn.
    by rewrite app_nil_r.
  - cbn [for_each] in Hrun. apply bind_ok_inv in Hrun.
    destruct Hrun as ([] & s1 & Hpair & Hrest).
    unfold convert_pair in Hpair. unfold children in *.
    case_bool_decide as Hk.
    + injection Hpair as <-. rewrite filter_cons_False by (cbn; tauto).
      by apply IH.
    + rewrite filter_cons_True by exact Hk.
      apply bind_ok_inv in Hpair. destruct Hpair as (r & s2 & Hcall & Hset).
      unfold call_root in Hcall.
      pose proof (Hframe v l context [] (world s) o Ho) as Hl.
      destruct (root_transform v (Ref l) context [] (world s)) as [res w'].
      cbn in Hl. injection Hcall as -> <-.
      assert (Ho1 : heap (world s1) !! l = Some (store o k r)).
      { unfold store. destruct (ne_null r).
        - injection Hset as <-. unfold with_heap. cbn [world heap].
          rewrite list_lookup_alter_eq, Hl. reflexivity.
        - injection Hset as <-. cbn [world]. exact Hl. }
      assert (Hc1 : calls s1
                    = calls s ++ [mkCall v (Ref l) context [] (Ok r)]).
      { destruct (ne_null r); injection Hset as <-; reflexivity. }
      destruct (IH s1 (store o k r) Hrest Ho1) as (rs & Hlen & Hcalls & Hheap).
      exists (r :: rs). cbn. split; [by rewrite Hlen|].
      split; [|exact Hheap]. rewrite Hcalls, Hc1. by rewrite <- app_assoc.
Qed.

Lemma convert_pairs_total (l : loc) (context : option TransformerContext)
  (its : list (pystr * PDFObject)) (s : State) :
  total ->
  exists s', for_each its (convert_pair (Ref l) context) s = (Ok tt, s').
Proof.
  intros Htotal. revert s. induction its as [|[k v] rest IH]; intros s.
  - eexists. reflexivity.
  - cbn [for_each]. unfold bind at 1, convert_pair.
    case_bool_decide as Hk.
    + unfold ret. apply IH.
    + unfold bind, call_root.
      destruct (Htotal v (Ref l) context [] (world s)) as [r Hr].
      destruct (root_transform v (Ref l) context [] (world s)) as [res w'].
      cbn in Hr. subst res.
      destruct (ne_null r); cbn; apply IH.
Qed.

Lemma children_keys_NoDup (d : list (pystr * PDFObject)) :
  NoDup d.*1 -> NoDup (children d).*1.
Proof.
  intros Hnd. apply (sublist_NoDup _ d.*1); [assumption|].
  apply fmap_sublist. apply sublist_filter.
Qed.

(** C2, as the code has it. On a font dictionary of a known subtype, with
    a root transformer that returns and leaves its parent alone,
    [transform] returns the new typed object, which carries the parent and
    the listeners of the call; the root transformer is called once for
    each pair other than [Parent], in order, with the new object as
    parent, the context of the call and an empty list of listeners. *)
Theorem transform_children_calls (d : list (pystr * PDFObject)) (n : pystr)
  (cls : Class) (parent_object : Value)
  (context : option TransformerContext)
  (event_listeners : list EventListener) (s : State) :
  dict_get (str "Subtype") d = Some (PDFName n) ->
  font_class n = Some cls ->
  total ->
  preserves_parent ->
  exists (s' : State) (rs : list Value) (o : TypedObject),
    transform (PDFDictionary d) parent_object context event_listeners s
    = (Ok (Ref (length (heap (world s)))), s')
    /\ length rs = length (children d)
    /\ calls s'
       = calls s
         ++ zip_with
              (fun kv r =>
                 mkCall kv.2 (Ref (length (heap (world s)))) context []
                   (Ok r))
              (children d) rs
    /\ heap (world s') !! length (heap (world s)) = Some o
    /\ class o = cls
    /\ parent o = parent_object
    /\ listeners o = event_listeners.
Proof.
  intros Hsub Hcls Htotal Hframe.
  rewrite (transform_known d n cls _ _ _ s Hsub Hcls). cbn zeta.
  set (l := length (heap (world s))).
  set (s1 := with_heap _ s).
  destruct (convert_pairs_total l context d s1 Htotal) as [s' Hrun].
  assert (Ho : heap (world s1) !! l
               = Some (mkTypedObject cls parent_object event_listeners ∅)).
  { unfold s1, with_heap. cbn [world heap]. by apply list_lookup_middle. }
  destruct (convert_pairs_inv l context d s1 s' _ Hframe Hrun Ho)
    as (rs & Hlen & Hcalls & Hheap).
  exists s', rs, (store_all (mkTypedObject cls parent_object event_listeners ∅)
                    (zip (children d).*1 rs)).
  rewrite Hrun. split; [reflexivity|]. split; [exact Hlen|].
  split; [exact Hcalls|]. split; [exact Hheap|].
  apply store_all_fields.
Qed.

Lemma transform_ref_known (d : list (pystr * PDFObject))
  (parent_object : Value) (context : option TransformerContext)
  (event_listeners : list EventListener) (s s' : State) (l : loc) :
  transform (PDFDictionary d) parent_object context event_listeners s
  = (Ok (Ref l), s') ->
  exists n cls,
    dict_get (str "Subtype") d = Some (PDFName n) /\ font_class n = Some cls.
Proof.
  intros Hrun. unfold transform in Hrun.
  apply bind_ok_inv in Hrun. destruct Hrun as (subtype & s1 & Hget & Hrun).
  apply bind_ok_inv in Hrun. destruct Hrun as (n & s2 & Hname & Hrun).
  unfold lift, getitem in Hget.
  destruct (dict_get (str "Subtype") d) as [v|] eqn:Hsub; [|discriminate].
  injection Hget as -> <-.
  unfold lift, name_of in Hname.
  destruct subtype as [|m| | | |]; try discriminate.
  injection Hname as -> <-.
  exists n. destruct (font_class n) as [cls|] eqn:Hcls; [by exists cls|].
  exfalso. unfold font_class in Hcls.
  repeat (case_bool_decide;
          [rewrite decide_True in Hcls by assumption; discriminate
          |rewrite decide_False in Hcls by assumption]).
  apply bind_ok_inv in Hrun. destruct Hrun as (font_obj & s3 & Hnew & Hrun).
  apply bind_ok_inv in Hnew. destruct Hnew as ([] & s4 & _ & Hnone).
  injection Hnone as <- <-.
  repeat (apply bind_ok_inv in Hrun; destruct Hrun as (? & ? & _ & Hrun)).
  discriminate.
Qed.

(** C5. After a dictionary with distinct keys was transformed into a typed
    object, by a root transformer that leaves its parent alone, each key
    other than [Parent] was given to the root transformer with its value;
    the object holds what that call returned under the key, unless it
    returned Null, and then it holds nothing under the key; and it holds
    nothing under [Parent]. *)
Theorem transform_attributes (d : list (pystr * PDFObject))
  (parent_object : Value) (context : option TransformerContext)
  (event_listeners : list EventListener) (s s' : State) (l : loc) :
  preserves_parent ->
  NoDup d.*1 ->
  transform (PDFDictionary d) parent_object context event_listeners s
  = (Ok (Ref l), s') ->
  exists o : TypedObject,
    heap (world s') !! l = Some o
    /\ attrs o !! str "Parent" = None
    /\ forall k v,
         (k, v) ∈ d -> k <> str "Parent" ->
         exists r : Value,
           mkCall v (Ref l) context [] (Ok r)
             ∈ drop (length (calls s)) (calls s')
           /\ attrs o !! k = if ne_null r then Some r else None.
Proof.
  intros Hframe Hnd Hrun.
  destruct (transform_ref_known _ _ _ _ _ _ _ Hrun) as (n & cls & Hsub & Hcls).
  rewrite (transform_known d n cls _ _ _ s Hsub Hcls) in Hrun. cbn zeta in Hrun.
  set (o0 := mkTypedObject cls parent_object event_listeners ∅) in *.
  set (s1 := with_heap _ s) in *.
  destruct (for_each d _ s1) as [[[]|e] s''] eqn:Hloop; [|discriminate].
  injection Hrun as <- ->.
  assert (Ho : heap (world s1) !! length (heap (world s)) = Some o0).
  { unfold s1, with_heap. cbn [world heap]. by apply list_lookup_middle. }
  destruct (convert_pairs_inv _ context d s1 s' _ Hframe Hloop Ho)
    as (rs & Hlen & Hcalls & Hheap).
  pose proof (children_keys_NoDup d Hnd) as Hndc.
  assert (Hfst : (zip (children d).*1 rs).*1 = (children d).*1)
    by (apply fst_zip; rewrite length_fmap; lia).
  exists (store_all o0 (zip (children d).*1 rs)).
  split; [exact Hheap|]. split.
  - rewrite store_all_lookup_other; [reflexivity|].
    rewrite Hfst. unfold children. rewrite list_elem_of_fmap.
    intros ([k v] & Hk & Hin). apply list_elem_of_filter in Hin.
    destruct Hin as [Hne _]. cbn in *. congruence.
  - intros k v Hin Hk.
    assert (Hc : (k, v) ∈ children d)
      by (apply list_elem_of_filter; split; assumption).
    apply list_elem_of_lookup in Hc. destruct Hc as [i Hi].
    destruct (lookup_lt_is_Some_2 rs i) as [r Hr].
    { rewrite Hlen. by apply lookup_lt_Some in Hi. }
    exists r. split.
    + rewrite Hcalls. unfold s1, with_heap. cbn [calls].
      rewrite drop_app_length. apply elem_of_lookup_zip_with.
      exists i, (k, v), r. auto.
    + rewrite (store_all_lookup o0 _ k r).
      * destruct (ne_null r); [reflexivity|]. apply lookup_empty.
      * by rewrite Hfst.
      * apply list_elem_of_lookup. exists i. apply lookup_zip_with_Some.
        exists k, r. split; [reflexivity|]. split; [|exact Hr].
        rewrite list_lookup_fmap, Hi. reflexivity.
Qed.

(** ** Further properties of the transformer *)

(** The state after the diagnostic for the subtype [n] was printed. *)
Definition printed (n : pystr) (s : State) : State :=
  {| world := {| heap := heap (world s);
                 stdout := stdout (world s)
                           ++ [str "Unsupported font type " ++ n] |};
     calls := calls s |}.

(** What [transform] does for an unknown subtype when no listener is
    supplied: the pairs are converted with [None] for the object. *)
Lemma transform_unknown_run (d : list (pystr * PDFObject)) (n : pystr)
  (parent_object : Value) (context : option TransformerContext) (s : State) :
  dict_get (str "Subtype") d = Some (PDFName n) ->
  font_class n = None ->
  transform (PDFDictionary d) parent_object context [] s
  = match for_each d (convert_pair PyNone context) (printed n s) with
    | (Ok _, s') => (Ok PyNone, s')
    | (Raise e, s') => (Raise e, s')
    end.
Proof.
  intros Hsub Hcls. unfold transform.
  unfold bind at 1. unfold lift at 1, getitem. rewrite Hsub.
  unfold bind at 1. unfold lift at 1, name_of.
  unfold font_class in Hcls.
  repeat (case_bool_decide;
          [rewrite decide_True in Hcls by assumption; discriminate
          |rewrite decide_False in Hcls by assumption]).
  unfold bind, print, modify, ret, lift, items_of. cbn [for_each].
  fold (printed n s). unfold ret. cbv beta iota.
  destruct (for_each d (convert_pair PyNone context) (printed n s))
    as [[[]|e] s']; reflexivity.
Qed.



Lemma convert_pair_calls (font_obj : Value)
  (context : option TransformerContext) (kv : pystr * PDFObject)
  (s s1 : State) (r : Result unit) :
  convert_pair font_obj context kv s = (r, s1) ->
  (length (calls s) <= length (calls s1))%nat.
Proof.
  destruct kv as [k v]. unfold convert_pair. case_bool_decide.
  - intros [= <- <-]. lia.
  - unfold bind, call_root.
    destruct (root_transform v font_obj context [] (world s)) as [[a|e] w'].
    + destruct (ne_null a).
      * destruct font_obj; intros [= <- <-]; cbn; rewrite length_app; cbn; lia.
      * intros [= <- <-]. cbn. rewrite length_app. cbn. lia.
    + intros [= <- <-]. cbn. rewrite length_app. cbn. lia.
Qed.

Lemma convert_pairs_raise (l : loc) (context : option TransformerContext)
  (its : list (pystr * PDFObject)) (s s' : State) (e : exn) :
  for_each its (convert_pair (Ref l) context) s = (Raise e, s') ->
  exists c : Call,
    last (calls s') = Some c
    /\ call_result c = Raise e
    /\ call_parent c = Ref l
    /\ (length (calls s) < length (calls s'))%nat.
Proof.
  revert s. induction its as [|[k v] rest IH]; intros s Hrun;
    [discriminate|].
  cbn [for_each] in Hrun. unfold bind at 1 in Hrun.
  destruct (convert_pair (Ref l) context (k, v) s) as [[[]|e1] s1] eqn:Hpair.
  - destruct (IH s1 Hrun) as (c & Hlast & Hres & Hpar & Hlen).
    exists c. repeat split; try assumption.
    apply convert_pair_calls in Hpair. lia.
  - injection Hrun as -> ->.
    unfold convert_pair in Hpair. case_bool_decide; [discriminate|].
    unfold bind, call_root in Hpair.
    destruct (root_transform v (Ref l) context [] (world s)) as [[a|e1] w'].
    + destruct (ne_null a); discriminate.
    + injection Hpair as -> <-.
      exists (mkCall v (Ref l) context [] (Raise e)). cbn [calls].
      split; [apply last_snoc|]. repeat split.
      rewrite length_app. cbn. lia.
Qed.

(** X16. On a dictionary of a known subtype [transform] adds no failure
    of its own: when it raises, the exception is the one the root
    transformer raised in the last call made, a call for a child of the
    new object. *)
Theorem transform_known_raises (d : list (pystr * PDFObject)) (n : pystr)
  (cls : Class) (parent_object : Value)
  (context : option TransformerContext)
  (event_listeners : list EventListener) (s s' : State) (e : exn) :
  dict_get (str "Subtype") d = Some (PDFName n) ->
  font_class n = Some cls ->
  transform (PDFDictionary d) parent_object context event_listeners s
  = (Raise e, s') ->
  exists c : Call,
    last (calls s') = Some c
    /\ call_result c = Raise e
    /\ call_parent c = Ref (length (heap (world s)))
    /\ (length (calls s) < length (calls s'))%nat.
Proof.
  intros Hsub Hcls Hrun.
  rewrite (transform_known d n cls _ _ _ s Hsub Hcls) in Hrun.
  cbn zeta in Hrun.
  set (s1 := with_heap _ s) in *.
  destruct (for_each d _ s1) as [[[]|e1] s''] eqn:Hloop; [discriminate|].
  injection Hrun as -> ->.
  apply (convert_pairs_raise _ context d s1 s' e Hloop).
Qed.

(** The root transformer leaves the typed objects that exist alone. *)
Definition preserves_objects : Prop :=
  forall v p c ls w l o,
    heap w !! l = Some o ->
    heap (root_transform v p c ls w).2 !! l = Some o.

Lemma convert_pairs_keep (font_obj : Value)
  (context : option TransformerContext) (its : list (pystr * PDFObject))
  (s s' : State) (r : Result unit) (l : loc) (o : TypedObject) :
  preserves_objects ->
  font_obj <> Ref l ->
  for_each its (convert_pair font_obj context) s = (r, s') ->
  heap (world s) !! l = Some o ->
  heap (world s') !! l = Some o.
Proof.
  intros Hroot Hne. revert s.
  induction its as [|[k v] rest IH]; intros s Hrun Ho.
  - injection Hrun as <- <-. exact Ho.
  - cbn [for_each] in Hrun. unfold bind at 1 in Hrun.
    destruct (convert_pair font_obj context (k, v) s) as [res s1] eqn:Hpair.
    assert (Ho1 : heap (world s1) !! l = Some o).
    { unfold convert_pair in Hpair. case_bool_decide.
      - by injection Hpair as <- <-.
      - unfold bind, call_root in Hpair.
        pose proof (Hroot v font_obj context [] (world s) l o Ho) as Hl.
        destruct (root_transform v font_obj context [] (world s))
          as [[a|e] w'].
        + cbn in Hl. destruct (ne_null a).
          * destruct font_obj as [|p|l']; injection Hpair as <- <-;
              try exact Hl.
            unfold with_heap. cbn [world heap].
            rewrite list_lookup_alter_ne; [exact Hl | congruence].
          * by injection Hpair as <- <-.
        + by injection Hpair as <- <-. }
    destruct res as [[]|e].
    + by apply (IH s1).
    + by injection Hrun as <- <-.
Qed.

(** X17. With a root transformer that leaves the existing typed objects
    alone, so does [transform], whatever it is given and however it ends:
    the parent and every other object on the heap are as before; only the
    new object is written to. *)
Theorem transform_keeps_objects (object_to_transform : PDFObject)
  (parent_object : Value) (context : option TransformerContext)
  (event_listeners : list EventListener) (s : State) (l : loc)
  (o : TypedObject) :
  preserves_objects ->
  heap (world s) !! l = Some o ->
  heap (world (transform object_to_transform parent_object context
                 event_listeners s).2) !! l = Some o.
Proof.
  intros Hroot Ho.
  destruct object_to_transform as [|m|q|t|a|d]; try exact Ho.
  destruct (dict_get (str "Subtype") d) as [v|] eqn:Hsub.
  2: { unfold transform, bind, lift, getitem. rewrite Hsub. exact Ho. }
  destruct v as [|n| | | |];
    try (unfold transform, bind, lift, getitem; rewrite Hsub; exact Ho).
  destruct (font_class n) as [cls|] eqn:Hcls.
  - rewrite (transform_known d n cls _ _ _ s Hsub Hcls). cbn zeta.
    set (s1 := with_heap _ s).
    destruct (for_each d (convert_pair (Ref (length (heap (world s))))
                            context) s1) as [res s'] eqn:Hloop.
    assert (Hs' : heap (world s') !! l = Some o).
    { apply (convert_pairs_keep (Ref (length (heap (world s)))) context d
               s1 s' res l o Hroot); [|exact Hloop|].
      - intros [= Heq]. apply lookup_lt_Some in Ho. lia.
      - unfold s1, with_heap. cbn [world heap]. by apply lookup_app_l_Some. }
    by destruct res as [[]|e].
  - destruct event_listeners as [|l0 ls].
    + rewrite (transform_unknown_run d n _ _ s Hsub Hcls).
      destruct (for_each d (convert_pair PyNone context) (printed n s))
        as [res s'] eqn:Hloop.
      assert (Hs' : heap (world s') !! l = Some o).
      { apply (convert_pairs_keep PyNone context d (printed n s) s' res l o
                 Hroot); [discriminate | exact Hloop | exact Ho]. }
      by destruct res as [[]|e].
    + rewrite (transform_unknown d n _ _ l0 ls s Hsub Hcls). exact Ho.
Qed.

End Model.

(** *** Concrete runs *)

(** A root transformer of the simplest kind: a dictionary becomes a typed
    object with the parent and the listeners it is given, every other node
    is returned as it is. Listeners are numbered. *)
Definition simple_root (v : PDFObject) (p : Value) (c : option unit)
  (ls : list nat) : M (World (EventListener := nat)) Value :=
  fun w =>
    match v with
    | PDFDictionary _ =>
        (Ok (Ref (length (heap w))),
         {| heap := heap w
                    ++ [mkTypedObject (OtherClass (str "Dictionary")) p ls ∅];
            stdout := stdout w |})
    | _ => (Ok (Prim v), w)
    end.

Definition start : State (EventListener := nat) (TransformerContext := unit) :=
  {| world := {| heap := []; stdout := [] |}; calls := [] |}.

(** A Type 1 font with a link to its parent, a descriptor and a Null
    entry. *)
Definition times_roman : list (pystr * PDFObject) :=
  [(str "Type", PDFName (str "Font"));
   (str "Subtype", PDFName (str "Type1"));
   (str "Parent", PDFDictionary []);
   (str "FontDescriptor",
     PDFDictionary [(str "Type", PDFName (str "FontDescriptor"))]);
   (str "Encoding", PDFNull)].

Lemma simple_root_total : total simple_root.
Proof.
  intros v p c ls w. unfold simple_root. destruct v; eexists; reflexivity.
Qed.

Lemma simple_root_preserves_parent : preserves_parent simple_root.
Proof.
  intros v l c ls w o Ho. unfold simple_root.
  destruct v; try exact Ho. cbn. by apply lookup_app_l_Some.
Qed.

(** The claim C2 in the words of the specification: every call of the root
    transformer made by [transform] receives the listeners of the call. *)
Definition children_receive_listeners (event_listeners : list nat)
  (s s' : State (EventListener := nat) (TransformerContext := unit)) : Prop :=
  Forall (fun c => call_listeners c = event_listeners)
         (drop (length (calls s)) (calls s')).

(** With the listener 7 supplied, the children are transformed without
    it, and the typed object made for the descriptor has no listener. *)
Lemma children_receive_listeners_counterexample :
  let s' := (transform simple_root (PDFDictionary times_roman) PyNone None
               [7%nat] start).2 in
  ~ children_receive_listeners [7%nat] start s'
  /\ listeners <$> heap (world s') !! 0%nat = Some [7%nat]
  /\ listeners <$> heap (world s') !! 1%nat = Some []
  /\ parent <$> heap (world s') !! 1%nat = Some (Ref 0).
Proof.
  cbn zeta. split.
  - unfold children_receive_listeners. vm_compute. inversion 1. discriminate.
  - repeat split; vm_compute; reflexivity.
Qed.

Lemma transform_without_subtype_witness :
  dict_get (str "Type") [(str "Type", PDFName (str "Font"))]
  = Some (PDFName (str "Font"))
  /\ dict_get (str "Subtype") [(str "Type", PDFName (str "Font"))] = None
  /\ can_be_transformed (PDFDictionary [(str "Type", PDFName (str "Font"))])
     = true
  /\ transform simple_root
       (PDFDictionary [(str "Type", PDFName (str "Font"))]) PyNone None
       [7%nat] start
     = (Raise KeyError, start).
Proof.
  split; [reflexivity|]. split; [reflexivity|].
  exact (transform_without_subtype simple_root
           [(str "Type", PDFName (str "Font"))] PyNone None [7%nat] start
           eq_refl eq_refl).
Defined.

Lemma transform_children_calls_witness :
  dict_get (str "Subtype") times_roman = Some (PDFName (str "Type1"))
  /\ font_class (str "Type1") = Some FontType1
  /\ total simple_root
  /\ preserves_parent simple_root
  /\ exists s' rs o,
       transform simple_root (PDFDictionary times_roman) PyNone None
         [7%nat] start
       = (Ok (Ref 0), s')
       /\ length rs = 4%nat
       /\ calls s'
          = zip_with (fun kv r => mkCall kv.2 (Ref 0) None [] (Ok r))
              (children times_roman) rs
       /\ heap (world s') !! 0%nat = Some o
       /\ class o = FontType1
       /\ parent o = PyNone
       /\ listeners o = [7%nat].
Proof.
  split; [reflexivity|]. split; [reflexivity|].
  split; [exact simple_root_total|].
  split; [exact simple_root_preserves_parent|].
  exact (transform_children_calls simple_root times_roman (str "Type1")
           FontType1 PyNone None [7%nat] start eq_refl eq_refl
           simple_root_total simple_root_preserves_parent).
Defined.

Lemma times_roman_keys : NoDup times_roman.*1.
Proof. apply (bool_decide_unpack _). vm_compute. exact I. Qed.

Lemma times_roman_run :
  transform simple_root (PDFDictionary times_roman) PyNone None [7%nat] start
  = (Ok (Ref 0),
     (transform simple_root (PDFDictionary times_roman) PyNone None [7%nat]
        start).2).
Proof.
  assert (Hr : (transform simple_root (PDFDictionary times_roman) PyNone None
                  [7%nat] start).1 = Ok (Ref 0))
    by (vm_compute; reflexivity).
  destruct (transform simple_root (PDFDictionary times_roman) PyNone None
              [7%nat] start) as [r s'].
  cbn in Hr. by subst r.
Qed.

Lemma transform_attributes_witness :
  let s' := (transform simple_root (PDFDictionary times_roman) PyNone None
               [7%nat] start).2 in
  preserves_parent simple_root
  /\ NoDup times_roman.*1
  /\ transform simple_root (PDFDictionary times_roman) PyNone None [7%nat]
       start
     = (Ok (Ref 0), s')
  /\ exists o : TypedObject,
       heap (world s') !! 0%nat = Some o
       /\ attrs o !! str "Parent" = None
       /\ forall k v,
            (k, v) ∈ times_roman -> k <> str "Parent" ->
            exists r : Value,
              mkCall v (Ref 0) None [] (Ok r)
                ∈ drop (length (calls start)) (calls s')
              /\ attrs o !! k = if ne_null r then Some r else None.
Proof.
  cbn zeta.
  split; [exact simple_root_preserves_parent|].
  split; [exact times_roman_keys|].
  split; [exact times_roman_run|].
  exact (transform_attributes simple_root times_roman PyNone None [7%nat]
           start _ 0%nat simple_root_preserves_parent times_roman_keys
           times_roman_run).
Defined.

(** The attributes of the typed object made from [times_roman]: the
    descriptor is the typed object at 1, [Parent] and the Null entry are
    not stored. *)
Example times_roman_attributes :
  let s' := (transform simple_root (PDFDictionary times_roman) PyNone None
               [7%nat] start).2 in
  (fun o => attrs o !! str "FontDescriptor") <$> heap (world s') !! 0%nat
  = Some (Some (Ref 1))
  /\ (fun o => attrs o !! str "Subtype") <$> heap (world s') !! 0%nat
     = Some (Some (Prim (PDFName (str "Type1"))))
  /\ (fun o => attrs o !! str "Encoding") <$> heap (world s') !! 0%nat
     = Some None
  /\ (fun o => attrs o !! str "Parent") <$> heap (world s') !! 0%nat
     = Some None.
Proof. repeat split; vm_compute; reflexivity. Qed.

(** Without a listener, the unknown subtype fails one step later: the
    first transformed value that is not Null is stored on the object that
    was not created. *)
Example transform_unknown_subtype_store :
  (transform simple_root multiple_master PyNone None [] start).1
  = Raise TypeError.
Proof. vm_compute. reflexivity. Qed.

(** *** Further concrete runs *)


Definition strict_root (v : PDFObject) (p : Value) (c : option unit)
  (ls : list nat) : M (World (EventListener := nat)) Value :=
  fun w =>
    match v with
    | PDFNull => (Raise KeyError, w)
    | _ => simple_root v p c ls w
    end.

(** A state with one typed object on the heap. *)
Definition page_object : TypedObject (EventListener := nat) :=
  mkTypedObject (OtherClass (str "Page")) PyNone [] ∅.

Definition started : State (EventListener := nat) (TransformerContext := unit) :=
  {| world := {| heap := [page_object]; stdout := [] |}; calls := [] |}.

Lemma simple_root_preserves_objects : preserves_objects simple_root.
Proof.
  intros v p c ls w l o Ho. unfold simple_root.
  destruct v; try exact Ho. cbn. by apply lookup_app_l_Some.
Qed.



Lemma times_roman_strict_run :
  transform strict_root (PDFDictionary times_roman) PyNone None [7%nat] start
  = (Raise KeyError,
     (transform strict_root (PDFDictionary times_roman) PyNone None [7%nat]
        start).2).
Proof.
  assert (Hr : (transform strict_root (PDFDictionary times_roman) PyNone None
                  [7%nat] start).1 = Raise KeyError)
    by (vm_compute; reflexivity).
  destruct (transform strict_root (PDFDictionary times_roman) PyNone None
              [7%nat] start) as [r s'].
  cbn in Hr. by subst r.
Qed.

Lemma transform_known_raises_witness :
  let s' := (transform strict_root (PDFDictionary times_roman) PyNone None
               [7%nat] start).2 in
  dict_get (str "Subtype") times_roman = Some (PDFName (str "Type1"))
  /\ font_class (str "Type1") = Some FontType1
  /\ transform strict_root (PDFDictionary times_roman) PyNone None [7%nat]
       start
     = (Raise KeyError, s')
  /\ exists c : Call,
       last (calls s') = Some c
       /\ call_result c = Raise KeyError
       /\ call_parent c = Ref (length (heap (world start)))
       /\ (length (calls start) < length (calls s'))%nat.
Proof.
  cbn zeta.
  split; [reflexivity|]. split; [reflexivity|].
  split; [exact times_roman_strict_run|].
  exact (transform_known_raises strict_root times_roman (str "Type1")
           FontType1 PyNone None [7%nat] start _ KeyError eq_refl eq_refl
           times_roman_strict_run).
Defined.

Lemma transform_keeps_objects_witness :
  preserves_objects simple_root
  /\ heap (world started) !! 0%nat = Some page_object
  /\ heap (world (transform simple_root (PDFDictionary times_roman) (Ref 0)
                    None [7%nat] started).2) !! 0%nat
     = Some page_object.
Proof.
  split; [exact simple_root_preserves_objects|]. split; [reflexivity|].
  exact (transform_keeps_objects simple_root (PDFDictionary times_roman)
           (Ref 0) None [7%nat] started 0%nat page_object
           simple_root_preserves_objects eq_refl).
Defined.

End FontDictionaryTransformer.
